(** * LNK-22 WAN bridge: a shallow embedding of [web-client/wan_bridge.py]

    The bridge keeps three dictionaries (sites, routing table, seen
    messages) and talks to its sites over websockets.  The embedding keeps
    the dictionaries as the code has them, threads the bridge object and
    the state of the connections explicitly, and records every frame that
    was delivered.

    Modelling notes.
    - Python's [dict] keeps insertion order and [broadcast] walks the sites
      in that order, so [sites] is an association list with the [dict]
      operations written out; the routing table and the seen-message cache
      are only looked up, filtered and counted, so they are [gmap]s.
    - Clock readings ([time.time()], [datetime.now()]) are integers and are
      passed to the operation that takes them.
    - A websocket is a handle; [send] on a handle raises
      [ConnectionClosed] exactly when the handle is in the [closed] list of
      the world.  Each operation of the bridge is run to completion without
      another task in between, so [closed] is fixed while it runs.
    - An inbound frame is no JSON at all, a JSON value that is not an
      object, or a JSON object.  The objects are in the wire format of the
      protocol: the fields the bridge reads are typed ([type], [site_id],
      [name] and [dest] are strings, [nodes] is a list of strings, each
      possibly missing), the other fields are kept as they are.  What the
      bridge sends is the dictionary it passes to [json.dumps], one
      constructor per shape.
    - The heartbeat monitor takes the clock reading of each of its passes
      as an input, as the other operations do, and logs the sleeps it
      asks for; how long a sleep really takes is not modelled.
    - [json.dumps] and [sha256] are parameters of the relay engine.

    The file has the model first ([Site], [WANBridge], the operations of
    the bridge, the connection handler, the heartbeat monitor, and the
    system they form), then the notions the statements use, then the
    properties. *)

From Stdlib Require Import ZArith.
From stdpp Require Import base strings list gmap.

Open Scope Z_scope.
Open Scope string_scope.
Open Scope list_scope.

(** ** Python [dict] as an insertion-ordered association list *)

Section Dict.
Context {V : Type}.

(** [d.get(k)] *)
Fixpoint dict_get (k : string) (d : list (string * V)) : option V :=
  match d with
  | [] => None
  | (k', v) :: d' => if decide (k = k') then Some v else dict_get k d'
  end.

(** [d[k] = v]: an existing key keeps its place, a new key goes last. *)
Fixpoint dict_set (k : string) (v : V) (d : list (string * V)) : list (string * V) :=
  match d with
  | [] => [(k, v)]
  | (k', v') :: d' =>
      if decide (k = k') then (k, v) :: d' else (k', v') :: dict_set k v d'
  end.

(** [del d[k]] *)
Definition dict_del (k : string) (d : list (string * V)) : list (string * V) :=
  filter (fun e => e.1 <> k) d.

End Dict.

(** ** Data model *)

(** A websocket handle. *)
Definition conn := nat.
Bind Scope nat_scope with conn.

(** An inbound JSON object. *)
Record message := Message {
  msg_type : option string;
  msg_site_id : option string;
  msg_name : option string;
  msg_nodes : option (list string);
  msg_dest : option string;
  msg_fields : list (string * string)
}.

(** An entry of a ['sites'] list sent by the bridge. *)
Record site_info := SiteInfo {
  info_site_id : string;
  info_name : string;
  info_nodes : nat;
  info_connected_since : option Z
}.

(** The dictionaries the bridge passes to [json.dumps] and sends. *)
Inductive payload :=
  | PMsg (m : message)                                  (* an inbound message, relayed as it is *)
  | PSiteLeft (sid : string) (nm : string)              (* {'type': 'site_left', ...} *)
  | PSitesUpdate (infos : list site_info) (total : nat) (* {'type': 'sites_update', ...} *)
  | PSitesList (infos : list site_info)                 (* {'type': 'sites_list', ...} *)
  | PRegistered (sid : string)                          (* {'type': 'registered', ...} *)
  | PError (text : string).                             (* {'type': 'error', ...} *)

#[global] Instance message_eq_dec : EqDecision message.
Proof. solve_decision. Defined.
#[global] Instance site_info_eq_dec : EqDecision site_info.
Proof. solve_decision. Defined.
#[global] Instance payload_eq_dec : EqDecision payload.
Proof. solve_decision. Defined.

(** [class Site] *)
Record Site := mkSite {
  site_id : string;
  websocket : conn;
  name : string;
  nodes : gset string;
  connected_at : Z;
  last_heartbeat : Z;
  messages_relayed : nat;
  bytes_relayed : nat
}.

(** [class WANBridge] *)
Record WANBridge := mkBridge {
  sites : list (string * Site);
  seen_messages : gmap string Z;
  routing_table : gmap string string;
  total_messages : nat;
  total_bytes : nat;
  start_time : Z
}.

Definition message_ttl : Z := 60.

(** [WANBridge.__init__] *)
Definition WANBridge_init (now : Z) : WANBridge :=
  mkBridge [] ∅ ∅ 0 0 now.

(** The bridge object together with the connections: which handles are
    closed, and the frames delivered so far, oldest first. *)
Record world := mkWorld {
  bridge : WANBridge;
  closed : list conn;
  wire : list (conn * payload)
}.

Definition set_sites (f : list (string * Site) -> list (string * Site)) (w : world) : world :=
  let b := bridge w in
  mkWorld (mkBridge (f (sites b)) (seen_messages b) (routing_table b)
                    (total_messages b) (total_bytes b) (start_time b))
          (closed w) (wire w).

Definition set_seen_messages (f : gmap string Z -> gmap string Z) (w : world) : world :=
  let b := bridge w in
  mkWorld (mkBridge (sites b) (f (seen_messages b)) (routing_table b)
                    (total_messages b) (total_bytes b) (start_time b))
          (closed w) (wire w).

Definition set_routing_table (f : gmap string string -> gmap string string) (w : world) : world :=
  let b := bridge w in
  mkWorld (mkBridge (sites b) (seen_messages b) (f (routing_table b))
                    (total_messages b) (total_bytes b) (start_time b))
          (closed w) (wire w).

Definition set_total_messages (f : nat -> nat) (w : world) : world :=
  let b := bridge w in
  mkWorld (mkBridge (sites b) (seen_messages b) (routing_table b)
                    (f (total_messages b)) (total_bytes b) (start_time b))
          (closed w) (wire w).

Definition set_total_bytes (f : nat -> nat) (w : world) : world :=
  let b := bridge w in
  mkWorld (mkBridge (sites b) (seen_messages b) (routing_table b)
                    (total_messages b) (f (total_bytes b)) (start_time b))
          (closed w) (wire w).

(** [await websocket.send(...)]: [true] when the frame was delivered,
    [false] when [ConnectionClosed] was raised. *)
Definition send (c : conn) (p : payload) (w : world) : bool * world :=
  if decide (c ∈ closed w) then (false, w)
  else (true, mkWorld (bridge w) (closed w) (wire w ++ [(c, p)])).

(** ** Site registry *)

(** The dictionary comprehension of [unregister_site]. *)
Definition purge_routes (sid : string) (rt : gmap string string) : gmap string string :=
  filter (fun e => e.2 <> sid) rt.

(** The loop of [broadcast] over [list(self.sites.items())]; [unreg] is the
    [unregister_site] it calls when a send fails. *)
Fixpoint broadcast_loop (unreg : string -> world -> world) (p : payload)
    (exclude : option string) (snapshot : list (string * Site)) (w : world) : world :=
  match snapshot with
  | [] => w
  | (sid, site) :: rest =>
      let w1 :=
        if decide (Some sid = exclude) then w
        else match send (websocket site) p w with
             | (true, w') => w'
             | (false, w') => unreg sid w'
             end in
      broadcast_loop unreg p exclude rest w1
  end.

(** [unregister_site] and [broadcast] call each other; every call of
    [unregister_site] that goes on to broadcast has deleted a site first,
    so the nesting is bounded by the number of sites, which is the [n]
    here. *)
Fixpoint unregister_site_n (n : nat) (sid : string) (w : world) : world :=
  match dict_get sid (sites (bridge w)) with
  | None => w
  | Some site =>
      let w1 := set_sites (dict_del sid) (set_routing_table (purge_routes sid) w) in
      match n with
      | O => w1
      | S n' =>
          broadcast_loop (unregister_site_n n') (PSiteLeft sid (name site)) (Some sid)
                         (sites (bridge w1)) w1
      end
  end.

(** [WANBridge.unregister_site] *)
Definition unregister_site (sid : string) (w : world) : world :=
  unregister_site_n (length (sites (bridge w))) sid w.

(** [WANBridge.broadcast] *)
Definition broadcast (p : payload) (exclude : option string) (w : world) : world :=
  broadcast_loop unregister_site p exclude (sites (bridge w)) w.

(** [sid[:n]] *)
Definition prefix (n : nat) (s : string) : string := String.substring 0 n s.

(** [WANBridge.broadcast_site_update] *)
Definition broadcast_site_update (w : world) : world :=
  let sites_info :=
    map (fun e : string * Site =>
           SiteInfo (prefix 16 e.1) (name e.2) (size (nodes e.2)) (Some (connected_at e.2)))
        (sites (bridge w)) in
  broadcast (PSitesUpdate sites_info (length (sites (bridge w)))) None w.

(** [WANBridge.register_site]; [now] is the reading of the clock the
    [Site] constructor takes. *)
Definition register_site (ws : conn) (sid : string) (nm : string) (now : Z) (w : world) : world :=
  let site := mkSite sid ws (if decide (nm = "") then "Site-" +:+ prefix 8 sid else nm)
                     ∅ now now 0 0 in
  broadcast_site_update (set_sites (dict_set sid site) w).

(** ** Routing table *)

(** [WANBridge.update_routing] *)
Definition update_routing (sid : string) (nodes_ : list string) (w : world) : world :=
  let w1 := set_routing_table (fun rt => foldl (fun rt node => <[node := sid]> rt) rt nodes_) w in
  match dict_get sid (sites (bridge w1)) with
  | Some s =>
      set_sites (dict_set sid (mkSite (site_id s) (websocket s) (name s) (list_to_set nodes_)
                                      (connected_at s) (last_heartbeat s)
                                      (messages_relayed s) (bytes_relayed s))) w1
  | None => w1
  end.

(** [WANBridge.find_route] *)
Definition find_route (dest_node : string) (w : world) : option string :=
  routing_table (bridge w) !! dest_node.

(** ** Relay engine *)

(** The exceptions that leave [handle_message] and [handler]:
    [self.sites[site_id]] on a missing key, and [message.get] on a JSON
    value that is not an object. *)
Inductive exn := KeyError | AttributeError.

Section Relay.
(** [json.dumps(message)], [json.dumps(message, sort_keys=True)] and
    [hashlib.sha256(s.encode()).hexdigest()]. *)
Variable json_dumps : payload -> string.
Variable json_dumps_sorted : message -> string.
Variable sha256_hexdigest : string -> string.

(** [WANBridge.relay_to_site] *)
Definition relay_to_site (target : string) (p : payload) (w : world) : bool * world :=
  match dict_get target (sites (bridge w)) with
  | Some site =>
      let msg_str := json_dumps p in
      match send (websocket site) p w with
      | (true, w1) =>
          (true,
           set_sites (dict_set target
                        (mkSite (site_id site) (websocket site) (name site) (nodes site)
                                (connected_at site) (last_heartbeat site)
                                (S (messages_relayed site))
                                (bytes_relayed site + String.length msg_str))) w1)
      | (false, w1) => (false, unregister_site target w1)
      end
  | None => (false, w)
  end.

(** [WANBridge.deduplicate_message]; [now] is [time.time()]. *)
Definition deduplicate_message (m : message) (now : Z) (w : world) : bool * world :=
  let content := json_dumps_sorted m in
  let msg_hash := prefix 16 (sha256_hexdigest content) in
  let w1 := set_seen_messages (filter (fun e => now - e.2 < message_ttl)) w in
  match seen_messages (bridge w1) !! msg_hash with
  | Some _ => (false, w1)
  | None => (true, set_seen_messages (insert msg_hash now) w1)
  end.

(** [WANBridge.handle_message]; [now] is the reading of the clock taken by
    the branch ([datetime.now()] or [time.time()]).  The result is the
    exception that escaped, if any; the world is returned in both
    cases. *)
Definition handle_message (sid : string) (m : message) (now : Z) (w : world)
    : option exn * world :=
  let type := default "" (msg_type m) in
  if decide (type = "heartbeat") then
    match dict_get sid (sites (bridge w)) with
    | Some s =>
        (None,
         set_sites (dict_set sid (mkSite (site_id s) (websocket s) (name s) (nodes s)
                                         (connected_at s) now
                                         (messages_relayed s) (bytes_relayed s))) w)
    | None => (None, w)
    end
  else if decide (type = "nodes_update") then
    let nodes_ := default [] (msg_nodes m) in
    let w1 := update_routing sid nodes_ w in
    match dict_get sid (sites (bridge w1)) with
    | Some _ => (None, w1)
    | None => (Some KeyError, w1)
    end
  else if decide (type = "mesh_message") then
    match deduplicate_message m now w with
    | (false, w1) => (None, w1)
    | (true, w1) =>
        let w2 := set_total_messages S w1 in
        match msg_dest m with
        | Some dest =>
            if decide (dest = "") then (None, broadcast (PMsg m) (Some sid) w2)
            else
              match find_route dest w2 with
              | Some target_site =>
                  if decide (target_site <> "" /\ target_site <> sid)
                  then (None, (relay_to_site target_site (PMsg m) w2).2)
                  else (None, broadcast (PMsg m) (Some sid) w2)
              | None => (None, broadcast (PMsg m) (Some sid) w2)
              end
        | None => (None, broadcast (PMsg m) (Some sid) w2)
        end
    end
  else if decide (type = "query_sites") then
    let infos :=
      map (fun e : string * Site =>
             SiteInfo (prefix 16 e.1) (name e.2) (size (nodes e.2)) None)
          (sites (bridge w)) in
    (None, (relay_to_site sid (PSitesList infos) w).2)
  else
    match deduplicate_message m now w with
    | (true, w1) => (None, broadcast (PMsg m) (Some sid) w1)
    | (false, w1) => (None, w1)
    end.

(** ** Connection handler *)

(** What [json.loads] returns: a JSON object, or another JSON value (an
    array, a string, a number, a boolean or [null]), none of which has a
    [get] method. *)
Inductive json_value := JObject (m : message) | JOther.

(** A frame read from the websocket: its length and what [json.loads]
    made of it ([None] for [JSONDecodeError]). *)
Record frame := Frame { raw_len : nat; json_loads : option json_value }.

(** The message of a frame that holds a JSON object. *)
Definition parsed (fr : frame) : option message :=
  match json_loads fr with
  | Some (JObject m) => Some m
  | Some JOther | None => None
  end.

(** How one round of the [async for] loop of [handler] ends: the loop
    goes on with the local [site_id], the handler returns, or an
    exception leaves it.  The [finally] clause has run in the last two
    cases. *)
Inductive round := Continue (local_site_id : option string) | Return | Raise (e : exn).

(** The [finally] clause of [handler]. *)
Definition handler_finally (local_site_id : option string) (w : world) : world :=
  match local_site_id with
  | Some sid => if decide (sid = "") then w else unregister_site sid w
  | None => w
  end.

(** One round of the loop of [handler] on websocket [ws]. *)
Definition handler_round (ws : conn) (local_site_id : option string) (fr : frame)
    (now : Z) (w : world) : round * world :=
  match json_loads fr with
  | None => (Continue local_site_id, w)
  | Some JOther =>
      (* [message.get] raises, in [handler] before the registration and
         in [handle_message] after it *)
      (Raise AttributeError, handler_finally local_site_id w)
  | Some (JObject m) =>
      match local_site_id with
      | None =>
          if decide (msg_type m = Some "register") then
            let nm := default "" (msg_name m) in
            match msg_site_id m with
            | Some sid =>
                if decide (sid = "") then
                  (Return, handler_finally (Some sid) (send ws (PError "site_id required") w).2)
                else
                  let w1 := register_site ws sid nm now w in
                  match send ws (PRegistered sid) w1 with
                  | (false, w2) => (Return, handler_finally (Some sid) w2)
                  | (true, w2) =>
                      let infos :=
                        map (fun e : string * Site =>
                               SiteInfo (prefix 16 e.1) (name e.2) (size (nodes e.2)) None)
                            (filter (fun e => e.1 <> sid) (sites (bridge w2))) in
                      match send ws (PSitesList infos) w2 with
                      | (false, w3) => (Return, handler_finally (Some sid) w3)
                      | (true, w3) => (Continue (Some sid), w3)
                      end
                  end
            | None =>
                (Return, handler_finally None (send ws (PError "site_id required") w).2)
            end
          else
            match send ws (PError "Must register first") w with
            | (false, w1) => (Return, handler_finally None w1)
            | (true, w1) => (Continue None, w1)
            end
      | Some sid =>
          match handle_message sid m now w with
          | (Some e, w1) => (Raise e, handler_finally (Some sid) w1)
          | (None, w1) => (Continue (Some sid), set_total_bytes (fun n => n + raw_len fr)%nat w1)
          end
      end
  end.

(** [handler] on websocket [ws], for the frames the connection delivers
    before it ends, each with the reading of the clock when it is handled;
    when the frames are used up the connection has ended and the [finally]
    clause runs. *)
Fixpoint handler_loop (ws : conn) (local_site_id : option string)
    (frames : list (frame * Z)) (w : world) : round * world :=
  match frames with
  | [] => (Return, handler_finally local_site_id w)
  | (fr, now) :: rest =>
      match handler_round ws local_site_id fr now w with
      | (Continue l, w') => handler_loop ws l rest w'
      | (r, w') => (r, w')
      end
  end.

Definition handler (ws : conn) (frames : list (frame * Z)) (w : world) : round * world :=
  handler_loop ws None frames w.
End Relay.

(** ** Heartbeat monitor *)

(** [asyncio.sleep(30)] and [timedelta(seconds=90)] of [heartbeat_checker]. *)
Definition heartbeat_period : Z := 30.
Definition heartbeat_timeout : Z := 90.

(** The [for] loop of [heartbeat_checker] over
    [list(bridge.sites.items())]. *)
Fixpoint heartbeat_loop (now : Z) (snapshot : list (string * Site)) (w : world) : world :=
  match snapshot with
  | [] => w
  | (sid, site) :: rest =>
      heartbeat_loop now rest
        (if decide (now - last_heartbeat site > heartbeat_timeout)
         then unregister_site sid w else w)
  end.

(** One pass of [heartbeat_checker], after the sleep; [now] is the
    [datetime.now()] it takes. *)
Definition heartbeat_pass (now : Z) (w : world) : world :=
  heartbeat_loop now (sites (bridge w)) w.

(** [heartbeat_checker], for the passes of its [while True] that have
    run: the task alone.  [nows] are the [datetime.now()] readings of the
    passes, in turn; the result has the [asyncio.sleep] delays the task
    asked for, one before each pass. *)
Fixpoint heartbeat_checker (nows : list Z) (w : world) : list Z * world :=
  match nows with
  | [] => ([], w)
  | now :: rest =>
      let r := heartbeat_checker rest (heartbeat_pass now w) in
      (heartbeat_period :: r.1, r.2)
  end.

(** ** Statistics *)

(** An entry of the ['sites'] list of [get_stats]. *)
Record site_stat := SiteStat {
  stat_name : string;
  stat_nodes : nat;
  stat_messages : nat;
  stat_connected : Z
}.

(** The dictionary [get_stats] returns. *)
Record stats := Stats {
  st_uptime_seconds : Z;
  st_uptime_str : string;
  st_total_sites : nat;
  st_total_nodes : nat;
  st_total_messages : nat;
  st_total_bytes : nat;
  st_sites : list site_stat
}.

Section Stats.
(** [str(uptime).split('.')[0]] of a [timedelta]. *)
Variable timedelta_str : Z -> string.

(** [WANBridge.get_stats]; [now] is its [datetime.now()]. *)
Definition get_stats (now : Z) (w : world) : stats :=
  let b := bridge w in
  let uptime := now - start_time b in
  Stats uptime (timedelta_str uptime)
        (length (sites b)) (size (routing_table b))
        (total_messages b) (total_bytes b)
        (map (fun e : string * Site =>
                SiteStat (name e.2) (size (nodes e.2)) (messages_relayed e.2)
                         (connected_at e.2))
             (sites b)).
End Stats.

(** ** The registration a frame asks for *)

(** The [site_id] of a frame that [handler] accepts as a registration: a
    JSON object of type [register] with a non-empty [site_id]. *)
Definition register_id (fr : frame) : option string :=
  match parsed fr with
  | Some m =>
      if decide (msg_type m = Some "register") then
        match msg_site_id m with
        | Some sid => if decide (sid = "") then None else Some sid
        | None => None
        end
      else None
  | None => None
  end.

(** The ['sites'] entries [handle_message] and [handler] build for a
    [sites_list]. *)
Definition sites_list_infos (ss : list (string * Site)) : list site_info :=
  map (fun e : string * Site =>
         SiteInfo (prefix 16 e.1) (name e.2) (size (nodes e.2)) None) ss.

(** The ['sites'] entries [broadcast_site_update] builds. *)
Definition sites_update_infos (ss : list (string * Site)) : list site_info :=
  map (fun e : string * Site =>
         SiteInfo (prefix 16 e.1) (name e.2) (size (nodes e.2)) (Some (connected_at e.2))) ss.

(** ** The bridge with its connection handlers

    One [handler] task runs per connection.  Its only local state is
    [site_id]: [None] until the connection has registered.  The tasks, the
    heartbeat monitor and the network take turns; a turn is one round of a
    handler loop, the end of a connection, a pass of the monitor, or a
    connection going dead. *)

Inductive handler_state :=
  | Waiting                    (* [site_id is None] *)
  | Identified (sid : string)  (* [site_id] is set *)
  | Ended.                     (* the handler has returned or raised *)

Definition local_site_id (st : handler_state) : option string :=
  match st with
  | Identified sid => Some sid
  | Waiting | Ended => None
  end.

Definition after_round (r : round) : handler_state :=
  match r with
  | Continue (Some sid) => Identified sid
  | Continue None => Waiting
  | Return | Raise _ => Ended
  end.

Record system := mkSystem {
  sys_world : world;
  handlers : gmap conn handler_state
}.

(** The websocket [c] is closed from now on. *)
Definition close_conn (c : conn) (w : world) : world :=
  mkWorld (bridge w) (c :: closed w) (wire w).

Section System.
Variable json_dumps : payload -> string.
Variable json_dumps_sorted : message -> string.
Variable sha256_hexdigest : string -> string.

Inductive step : system -> system -> Prop :=
  | step_accept c w hs :
      (* a new connection: [handler] starts on a websocket not seen before *)
      hs !! c = None ->
      step (mkSystem w hs) (mkSystem w (<[c := Waiting]> hs))
  | step_frame c st fr now w hs :
      (* the handler of [c] reads a frame *)
      hs !! c = Some st -> st <> Ended ->
      step (mkSystem w hs)
           (mkSystem
              (handler_round json_dumps json_dumps_sorted sha256_hexdigest
                 c (local_site_id st) fr now w).2
              (<[c := after_round
                        (handler_round json_dumps json_dumps_sorted sha256_hexdigest
                           c (local_site_id st) fr now w).1]> hs))
  | step_close c st w hs :
      (* the connection of [c] ends: the loop is left and [finally] runs *)
      hs !! c = Some st -> st <> Ended ->
      step (mkSystem w hs)
           (mkSystem (handler_finally (local_site_id st) (close_conn c w))
                     (<[c := Ended]> hs))
  | step_dead c w hs :
      (* a connection goes dead without its handler noticing *)
      step (mkSystem w hs) (mkSystem (close_conn c w) hs)
  | step_heartbeat now w hs :
      (* a pass of the heartbeat monitor *)
      step (mkSystem w hs) (mkSystem (heartbeat_pass now w) hs).

(** The states the bridge can be in, from its start at time [t0]. *)
Definition reachable (t0 : Z) (sys : system) : Prop :=
  rtc step (mkSystem (mkWorld (WANBridge_init t0) [] []) ∅) sys.
End System.

(** Every record of the registry [ss] belongs to a running handler that has
    identified itself by the key of the record, and no handler has
    identified itself by the empty id. *)
Definition owned (ss : list (string * Site)) (hs : gmap conn handler_state) : Prop :=
  NoDup ss.*1 /\
  (forall k s, (k, s) ∈ ss -> hs !! websocket s = Some (Identified k)) /\
  (forall c, hs !! c <> Some (Identified "")).

Definition records_owned (sys : system) : Prop :=
  owned (sites (bridge (sys_world sys))) (handlers sys).

(** ** Notions used to state what an operation did *)

(** The bridge with the sites [ks] gone: their records deleted and the
    routes they own purged. *)
Definition evict (ks : list string) (b : WANBridge) : WANBridge :=
  mkBridge (filter (fun e => e.1 ∉ ks) (sites b)) (seen_messages b)
           (filter (fun e => e.2 ∉ ks) (routing_table b))
           (total_messages b) (total_bytes b) (start_time b).

(** [q] is the [site_left] notice of one of the sites [ks] of [w]. *)
Definition left_by (ks : list string) (w : world) (q : payload) : Prop :=
  exists k s, q = PSiteLeft k (name s) /\ k ∈ ks /\ dict_get k (sites (bridge w)) = Some s.

(** From [w] to [w'] some registered sites [ks] were unregistered, nothing
    else of the bridge changed, no connection changed, and every frame that
    was delivered is the [site_left] notice of one of them or a frame
    allowed by [fg]. *)
Definition run (fg : conn -> payload -> Prop) (w w' : world) : Prop :=
  exists ks new,
    Forall (fun k => is_Some (dict_get k (sites (bridge w)))) ks /\
    bridge w' = evict ks (bridge w) /\
    closed w' = closed w /\
    wire w' = wire w ++ new /\
    forall c q, (c, q) ∈ new -> left_by ks w q \/ fg c q.

Definition no_frame : conn -> payload -> Prop := fun _ _ => False.

(** The frames of a broadcast of [p] over [snapshot]. *)
Definition broadcast_frame (p : payload) (exclude : option string)
    (snapshot : list (string * Site)) : conn -> payload -> Prop :=
  fun c q => q = p /\ exists k s, (k, s) ∈ snapshot /\ Some k <> exclude /\ websocket s = c.

(** How many times [p] was delivered to [c] in [l]. *)
Definition delivered (c : conn) (p : payload) (l : list (conn * payload)) : nat :=
  length (filter (fun e => e = (c, p)) l).

(** [q] is the [site_left] notice of a site that is registered in [w] and
    no longer in [w']. *)
Definition left_between (w w' : world) (q : payload) : bool :=
  match q with
  | PSiteLeft k nm =>
      match dict_get k (sites (bridge w)), dict_get k (sites (bridge w')) with
      | Some s, None => bool_decide (nm = name s)
      | _, _ => false
      end
  | _ => false
  end.

(** Well-formed registry: a [dict] has each key once, and no websocket is
    registered under two site ids. *)
Definition sites_wf (w : world) : Prop :=
  NoDup (sites (bridge w)).*1 /\ NoDup (websocket <$> (sites (bridge w)).*2).

(** Replays of a message: the results of [deduplicate_message] at the
    times [ts], in turn. *)
Fixpoint replay (json_dumps_sorted : message -> string) (sha256_hexdigest : string -> string)
    (m : message) (ts : list Z) (w : world) : list bool * world :=
  match ts with
  | [] => ([], w)
  | t :: ts' =>
      let r := deduplicate_message json_dumps_sorted sha256_hexdigest m t w in
      let rs := replay json_dumps_sorted sha256_hexdigest m ts' r.2 in
      (r.1 :: rs.1, rs.2)
  end.

(** The record of a site after a frame [p] was relayed to it by
    [relay_to_site]. *)
Definition relayed (json_dumps : payload -> string) (p : payload) (site : Site) : Site :=
  mkSite (site_id site) (websocket site) (name site) (nodes site)
         (connected_at site) (last_heartbeat site)
         (S (messages_relayed site))
         (bytes_relayed site + String.length (json_dumps p)).

(** Where [handle_message] forwards a new [mesh_message] of [sid]: to one
    site ([Some]), or to all the others ([None]). *)
Definition unicast_target (sid : string) (m : message) (w : world) : option string :=
  match msg_dest m with
  | Some dest =>
      if decide (dest = "") then None
      else match find_route dest w with
           | Some target_site =>
               if decide (target_site <> "" /\ target_site <> sid)
               then Some target_site else None
           | None => None
           end
  | None => None
  end.

(** The test of [heartbeat_checker] on a site. *)
Definition now_stale (now : Z) (site : Site) : Prop :=
  now - last_heartbeat site > heartbeat_timeout.

(** What happens to the routing table: a site reports its nodes
    ([update_routing]), or the routes of a site are purged
    ([unregister_site]). *)
Inductive route_event :=
  | Reports (sid : string) (ns : list string)
  | Leaves (sid : string).

Definition route_apply (rt : gmap string string) (ev : route_event) : gmap string string :=
  match ev with
  | Reports sid ns => foldl (fun rt node => <[node := sid]> rt) rt ns
  | Leaves sid => purge_routes sid rt
  end.

(** The owner of [node] by the history, latest event first: the site of
    the most recent report that lists [node], unless its routes were
    purged since ([gone] collects the purges met on the way back). *)
Fixpoint latest_owner (node : string) (history : list route_event) (gone : list string)
    : option string :=
  match history with
  | [] => None
  | Reports sid ns :: older =>
      if decide (node ∈ ns)
      then if decide (sid ∈ gone) then None else Some sid
      else latest_owner node older gone
  | Leaves sid :: older => latest_owner node older (sid :: gone)
  end.

(** ** Concrete scenarios *)

(** Stand-ins for the serialiser and the digest, used where a scenario is
    evaluated: the canonical form lists the fields in a fixed order, the
    digest is the identity. *)
Definition dumps_ex (p : payload) : string :=
  match p with
  | PMsg m => "{" +:+ default "" (msg_type m) +:+ "}"
  | _ => "{}"
  end.
Definition sorted_ex (m : message) : string :=
  default "" (msg_type m) +:+ "|" +:+ default "" (msg_dest m) +:+ "|" +:+
  String.concat "," (map (fun f => f.1 +:+ "=" +:+ f.2) (msg_fields m)).
Definition sha256_ex (s : string) : string := s.

Definition handle_message_ex := handle_message dumps_ex sorted_ex sha256_ex.
Definition handler_round_ex := handler_round dumps_ex sorted_ex sha256_ex.

Definition w_start : world := mkWorld (WANBridge_init 0) [] [].

Definition register_frame (sid : string) : frame :=
  Frame 40 (Some (JObject (Message (Some "register") (Some sid) None None None []))).
Definition nodes_frame (ns : list string) : frame :=
  Frame 40 (Some (JObject (Message (Some "nodes_update") None None (Some ns) None []))).
Definition nodes_msg (ns : list string) : message :=
  Message (Some "nodes_update") None None (Some ns) None [].
Definition mesh_msg (dest : string) (text : string) : message :=
  Message (Some "mesh_message") None None None (Some dest) [("text", text)].

(** Site [s1] registers on websocket 1 at time 0. *)
Definition w_s1 : world := (handler_round_ex 1 None (register_frame "s1") 0 w_start).2.
(** Then site [s2] registers on websocket 2 at time 5. *)
Definition w_s1_s2 : world := (handler_round_ex 2 None (register_frame "s2") 5 w_s1).2.
(** Then they report their nodes: [s1] has [0xAAA], [s2] has [0xBBB]. *)
Definition w_nodes : world :=
  (handler_round_ex 2 (Some "s2") (nodes_frame ["0xBBB"]) 7
     (handler_round_ex 1 (Some "s1") (nodes_frame ["0xAAA"]) 6 w_s1_s2).2).2.
(** [s1] alone, and the heartbeat monitor passes at time 100. *)
Definition w_s1_evicted : world := heartbeat_pass 100 w_s1.

Definition heartbeat_frame : frame :=
  Frame 20 (Some (JObject (Message (Some "heartbeat") None None None None []))).
(** [s1], [s2] and then [s3] on websocket 3 at time 6; [s2] and [s3] send a
    heartbeat at time 80, [s1] is silent. *)
Definition w_three : world :=
  (handler_round_ex 3 (Some "s3") heartbeat_frame 80
     (handler_round_ex 2 (Some "s2") heartbeat_frame 80
        (handler_round_ex 3 None (register_frame "s3") 6 w_s1_s2).2).2).2.

Definition query_msg : message := Message (Some "query_sites") None None None None [].
(** [s1] is evicted from [w_three] at time 100, and its handler then
    handles a [nodes_update]: the route of [0xAAA] leads to a site that is
    not registered. *)
Definition w_stale_route : world :=
  (handle_message_ex "s1" (nodes_msg ["0xAAA"]) 101 (heartbeat_pass 100 w_three)).2.

(** * Properties *)

(** ** The dictionary operations *)

Section DictFacts.
Context {V : Type}.
Implicit Types (d : list (string * V)) (k : string) (v : V).

Lemma dict_get_Some_elem k v d : dict_get k d = Some v -> (k, v) ∈ d.
Proof.
  induction d as [|[k' v'] d IH]; simpl; [done|].
  case_decide; intros; simplify_eq; [left | right; auto].
Qed.

Lemma dict_get_None k d : dict_get k d = None <-> k ∉ d.*1.
Proof.
  induction d as [|[k' v'] d IH]; simpl.
  - split; [intros _; apply not_elem_of_nil | done].
  - rewrite not_elem_of_cons. case_decide; simplify_eq; [split; [done|tauto]|].
    rewrite IH. tauto.
Qed.

Lemma dict_get_is_Some k d : is_Some (dict_get k d) <-> k ∈ d.*1.
Proof.
  rewrite <- not_eq_None_Some, dict_get_None.
  split; [apply dec_stable | tauto].
Qed.

Lemma dict_get_elem_NoDup k v d : NoDup d.*1 -> (k, v) ∈ d -> dict_get k d = Some v.
Proof.
  induction d as [|[k' v'] d IH]; simpl; intros Hnd Hin.
  - by apply elem_of_nil in Hin.
  - apply NoDup_cons in Hnd as [Hk Hnd]. apply elem_of_cons in Hin as [Heq|Hin].
    + simplify_eq. by rewrite decide_True.
    + rewrite decide_False; [auto|]. intros ->. apply Hk.
      apply list_elem_of_fmap. by exists (k', v).
Qed.

Lemma dict_get_filter_keys (ks : list string) k d :
  dict_get k (filter (fun e => e.1 ∉ ks) d)
  = if decide (k ∈ ks) then None else dict_get k d.
Proof.
  induction d as [|[k' v'] d IH]; simpl.
  - by case_decide.
  - rewrite filter_cons. simpl. destruct (decide (k' ∉ ks)) as [Hk'|Hk']; simpl.
    + rewrite IH. repeat case_decide; simplify_eq; done.
    + rewrite IH. repeat case_decide; simplify_eq; done.
Qed.

Lemma dict_del_filter_keys k d : dict_del k d = filter (fun e => e.1 ∉ [k]) d.
Proof.
  unfold dict_del. apply list_filter_iff. intros e. rewrite list_elem_of_singleton. done.
Qed.

Lemma dict_get_del k k' d :
  dict_get k' (dict_del k d) = if decide (k' = k) then None else dict_get k' d.
Proof.
  rewrite dict_del_filter_keys, dict_get_filter_keys.
  destruct (decide (k' ∈ [k])) as [Hin|Hin]; rewrite list_elem_of_singleton in Hin;
    case_decide; done.
Qed.

Lemma dict_get_set k k' v d :
  dict_get k' (dict_set k v d) = if decide (k' = k) then Some v else dict_get k' d.
Proof.
  induction d as [|[k0 v0] d IH]; simpl.
  - repeat case_decide; simplify_eq; done.
  - repeat (case_decide; simpl; simplify_eq); try done.
Qed.

Lemma dict_set_keys k v d :
  (dict_set k v d).*1 = (if decide (k ∈ d.*1) then d.*1 else d.*1 ++ [k]).
Proof.
  induction d as [|[k0 v0] d IH].
  - case_decide as H; [by apply elem_of_nil in H | done].
  - cbn [dict_set]. destruct (decide (k = k0)) as [->|Hne].
    + rewrite decide_True; [done | left].
    + rewrite fmap_cons, IH. cbn. destruct (decide (k ∈ d.*1)).
      * rewrite decide_True; [done | by right].
      * rewrite decide_False; [done|]. rewrite not_elem_of_cons. done.
Qed.

Lemma dict_set_NoDup k v d : NoDup d.*1 -> NoDup (dict_set k v d).*1.
Proof.
  intros Hnd. rewrite dict_set_keys. case_decide; [done|].
  apply NoDup_app. split_and!; [done | | apply NoDup_singleton].
  intros x Hx Hx'. apply list_elem_of_singleton in Hx'. by subst.
Qed.

Lemma filter_keys_NoDup (ks : list string) d :
  NoDup d.*1 -> NoDup (filter (fun e => e.1 ∉ ks) d).*1.
Proof.
  intros Hnd. eapply sublist_NoDup; [exact Hnd|].
  apply fmap_sublist, sublist_filter.
Qed.
End DictFacts.

(** ** Frames *)

Lemma parsed_object fr m : parsed fr = Some m -> json_loads fr = Some (JObject m).
Proof. unfold parsed. destruct (json_loads fr) as [[m'|]|]; congruence. Qed.

(** ** Unregistering and broadcasting only ever remove sites *)

Lemma evict_nil b : evict [] b = b.
Proof.
  destruct b as [ss sm rt tm tb st]. unfold evict; simpl. f_equal.
  - induction ss as [|e ss IH]; [done|].
    rewrite filter_cons_True; [by rewrite IH | apply not_elem_of_nil].
  - apply map_filter_id. intros. apply not_elem_of_nil.
Qed.

Lemma evict_app ks1 ks2 b : evict ks2 (evict ks1 b) = evict (ks1 ++ ks2) b.
Proof.
  unfold evict; simpl. f_equal.
  - rewrite list_filter_filter. apply list_filter_iff.
    intros e. rewrite elem_of_app. tauto.
  - rewrite map_filter_filter. apply map_filter_ext.
    intros i x _. simpl. rewrite elem_of_app. tauto.
Qed.

Lemma evict_delete sid w :
  bridge (set_sites (dict_del sid) (set_routing_table (purge_routes sid) w))
  = evict [sid] (bridge w).
Proof.
  unfold evict, set_sites, set_routing_table, purge_routes; simpl. f_equal.
  - apply dict_del_filter_keys.
  - apply map_filter_ext. intros i x _. simpl. rewrite list_elem_of_singleton. done.
Qed.

Lemma evict_sites_get ks b k :
  dict_get k (sites (evict ks b)) = if decide (k ∈ ks) then None else dict_get k (sites b).
Proof. apply dict_get_filter_keys. Qed.

Lemma evict_routes ks b node :
  routing_table (evict ks b) !! node
  = match routing_table b !! node with
    | Some o => if decide (o ∈ ks) then None else Some o
    | None => None
    end.
Proof.
  unfold evict; simpl. rewrite map_lookup_filter.
  destruct (routing_table b !! node) as [o|]; simpl; [|done].
  case_decide; [by rewrite option_guard_False; [|tauto] | by rewrite option_guard_True].
Qed.

Lemma run_refl fg w : run fg w w.
Proof.
  exists [], []. split_and!; [constructor | by rewrite evict_nil | done | by rewrite app_nil_r |].
  intros c q Hin. by apply elem_of_nil in Hin.
Qed.

Lemma run_mono (fg fg' : conn -> payload -> Prop) w w' :
  (forall c q, fg c q -> fg' c q) -> run fg w w' -> run fg' w w'.
Proof.
  intros Hfg (ks & new & H1 & H2 & H3 & H4 & H5).
  exists ks, new. split_and!; try done.
  intros c q Hin. destruct (H5 c q Hin); auto.
Qed.

Lemma left_by_app_l ks1 ks2 w q : left_by ks1 w q -> left_by (ks1 ++ ks2) w q.
Proof. intros (k & s & -> & Hk & Hs). exists k, s. rewrite elem_of_app. auto. Qed.

Lemma left_by_app_r ks1 ks2 w w' q :
  bridge w' = evict ks1 (bridge w) -> left_by ks2 w' q -> left_by (ks1 ++ ks2) w q.
Proof.
  intros Hb (k & s & -> & Hk & Hs). exists k, s. rewrite elem_of_app.
  rewrite Hb, evict_sites_get in Hs. case_decide; [done | auto].
Qed.

Lemma run_trans fg w w' w'' : run fg w w' -> run fg w' w'' -> run fg w w''.
Proof.
  intros (ks1 & new1 & F1 & B1 & C1 & W1 & N1) (ks2 & new2 & F2 & B2 & C2 & W2 & N2).
  exists (ks1 ++ ks2), (new1 ++ new2). split_and!.
  - apply Forall_app. split; [done|].
    eapply Forall_impl; [exact F2|]. intros k [s Hs]. simpl in Hs.
    rewrite B1, evict_sites_get in Hs. case_decide; [done | by exists s].
  - by rewrite B2, B1, evict_app.
  - congruence.
  - by rewrite W2, W1, app_assoc.
  - intros c q [Hin|Hin]%elem_of_app.
    + destruct (N1 c q Hin); [left; by apply left_by_app_l | by right].
    + destruct (N2 c q Hin); [left; by eapply left_by_app_r | by right].
Qed.

Lemma run_send fg c p w :
  fg c p -> run fg w (send c p w).2.
Proof.
  intros Hfg. unfold send. case_decide; simpl; [apply run_refl|].
  exists [], [(c, p)]. split_and!; [constructor | by rewrite evict_nil | done | done |].
  intros c' q Hin%list_elem_of_singleton. injection Hin as -> ->. by right.
Qed.

Lemma run_after_evict fg fg' ks1 w w1 w' :
  Forall (fun k => is_Some (dict_get k (sites (bridge w)))) ks1 ->
  bridge w1 = evict ks1 (bridge w) -> closed w1 = closed w -> wire w1 = wire w ->
  (forall c q, fg c q -> left_by ks1 w q \/ fg' c q) ->
  run fg w1 w' -> run fg' w w'.
Proof.
  intros F1 B1 C1 W1 Hfg (ks2 & new & F2 & B2 & C2 & W2 & N2).
  exists (ks1 ++ ks2), new. split_and!.
  - apply Forall_app. split; [done|].
    eapply Forall_impl; [exact F2|]. intros k [s Hs]. simpl in Hs.
    rewrite B1, evict_sites_get in Hs. case_decide; [done | by exists s].
  - by rewrite B2, B1, evict_app.
  - congruence.
  - congruence.
  - intros c q Hin. destruct (N2 c q Hin) as [Hl|Hf].
    + left. by eapply left_by_app_r.
    + destruct (Hfg c q Hf); [left; by apply left_by_app_l | by right].
Qed.

Lemma broadcast_loop_run unreg p exclude :
  (forall k w, run no_frame w (unreg k w)) ->
  forall snapshot w,
    run (broadcast_frame p exclude snapshot) w (broadcast_loop unreg p exclude snapshot w).
Proof.
  intros Hunreg snapshot.
  induction snapshot as [|[sid site] rest IH]; intros w; simpl; [apply run_refl|].
  eapply run_trans; [|eapply run_mono; [|apply IH]].
  - destruct (decide (Some sid = exclude)) as [He|He]; [apply run_refl|].
    pose proof (run_send (broadcast_frame p exclude ((sid, site) :: rest))
                  (websocket site) p w) as Hs.
    unfold send in *. destruct (decide (websocket site ∈ closed w)).
    + eapply run_mono; [|apply Hunreg]. intros c q [].
    + apply Hs. split; [done|]. exists sid, site. split_and!; [left | done | done].
  - intros c q (-> & k & s & Hin & Hk & Hc). split; [done|].
    exists k, s. split_and!; [by right | done | done].
Qed.

Lemma unregister_site_n_run n : forall sid w, run no_frame w (unregister_site_n n sid w).
Proof.
  induction n as [|n IH]; intros sid w; simpl;
    destruct (dict_get sid (sites (bridge w))) as [site|] eqn:Hget; try apply run_refl.
  - exists [sid], []. split_and!.
    + by repeat constructor.
    + apply evict_delete.
    + done.
    + by rewrite app_nil_r.
    + intros c q Hin. by apply elem_of_nil in Hin.
  - eapply (run_after_evict _ _ [sid]); [| apply evict_delete | done | done | |
                                          apply broadcast_loop_run, IH].
    + by repeat constructor.
    + intros c q [-> _]. left. exists sid, site. split_and!; [done | left | done].
Qed.

Lemma unregister_site_run sid w : run no_frame w (unregister_site sid w).
Proof. apply unregister_site_n_run. Qed.

Lemma broadcast_run p exclude w :
  run (broadcast_frame p exclude (sites (bridge w))) w (broadcast p exclude w).
Proof. apply broadcast_loop_run, unregister_site_run. Qed.

(** What a run keeps. *)

Lemma run_sites_get fg w w' k s :
  run fg w w' -> dict_get k (sites (bridge w')) = Some s -> dict_get k (sites (bridge w)) = Some s.
Proof.
  intros (ks & new & _ & B & _) Hs. rewrite B, evict_sites_get in Hs. by case_decide.
Qed.

Lemma run_sites_none fg w w' k :
  run fg w w' -> dict_get k (sites (bridge w)) = None -> dict_get k (sites (bridge w')) = None.
Proof.
  intros (ks & new & _ & B & _) Hs. rewrite B, evict_sites_get. by case_decide.
Qed.

Lemma run_sites_length fg w w' :
  run fg w w' -> (length (sites (bridge w')) <= length (sites (bridge w)))%nat.
Proof. intros (ks & new & _ & B & _). rewrite B. apply length_filter. Qed.

Lemma run_sites_elem fg w w' e :
  run fg w w' -> e ∈ sites (bridge w') -> e ∈ sites (bridge w).
Proof.
  intros (ks & new & _ & B & _). rewrite B. simpl. rewrite list_elem_of_filter. tauto.
Qed.

Lemma run_wf fg w w' : run fg w w' -> sites_wf w -> sites_wf w'.
Proof.
  intros (ks & new & _ & B & _) [Hk Hw]. unfold sites_wf. rewrite B. simpl. split.
  - by apply filter_keys_NoDup.
  - eapply sublist_NoDup; [exact Hw|]. apply fmap_sublist, fmap_sublist, sublist_filter.
Qed.

Lemma unregister_site_n_gone n sid w :
  dict_get sid (sites (bridge (unregister_site_n n sid w))) = None.
Proof.
  destruct n as [|n]; simpl;
    destruct (dict_get sid (sites (bridge w))) as [site|] eqn:Hget; try done.
  - rewrite evict_delete, evict_sites_get. rewrite decide_True; [done | left].
  - eapply run_sites_none; [apply broadcast_loop_run, unregister_site_n_run|].
    rewrite evict_delete, evict_sites_get. rewrite decide_True; [done | left].
Qed.

(** ** The bound on the nesting is never reached

    [unregister_site] and [broadcast] satisfy the equations of the source. *)

Lemma broadcast_loop_ext (f g : string -> world -> world) p exclude (N : nat) :
  (forall k w, run no_frame w (f k w)) ->
  (forall k w, (length (sites (bridge w)) <= N)%nat -> f k w = g k w) ->
  forall snapshot w,
    (length (sites (bridge w)) <= N)%nat ->
    broadcast_loop f p exclude snapshot w = broadcast_loop g p exclude snapshot w.
Proof.
  intros Hrun Hfg snapshot.
  induction snapshot as [|[sid site] rest IH]; intros w Hlen; simpl; [done|].
  destruct (decide (Some sid = exclude)); [by apply IH|].
  unfold send. destruct (decide (websocket site ∈ closed w)).
  - rewrite <- (Hfg sid w Hlen). apply IH.
    pose proof (run_sites_length _ _ _ (Hrun sid w)). lia.
  - by apply IH.
Qed.

Lemma dict_del_length_lt {V} k (v : V) d :
  dict_get k d = Some v -> (length (dict_del k d) < length d)%nat.
Proof.
  intros Hget%dict_get_Some_elem. unfold dict_del.
  eapply length_filter_lt; [exact Hget|]. simpl. tauto.
Qed.

Lemma unregister_site_n_fuel n :
  forall m sid w,
    (length (sites (bridge w)) <= n)%nat -> (length (sites (bridge w)) <= m)%nat ->
    unregister_site_n n sid w = unregister_site_n m sid w.
Proof.
  induction n as [|n IH]; intros m sid w Hn Hm;
    destruct m as [|m]; simpl;
    destruct (dict_get sid (sites (bridge w))) as [site|] eqn:Hget; try done;
    pose proof (dict_del_length_lt _ _ _ Hget) as Hlt; try (exfalso; lia).
  apply (broadcast_loop_ext _ _ _ _ (length (dict_del sid (sites (bridge w))))).
  - apply unregister_site_n_run.
  - intros k w' Hlen. apply IH; lia.
  - done.
Qed.

(** [unregister_site], as the source has it. *)
Lemma unregister_site_eq sid w :
  unregister_site sid w =
  match dict_get sid (sites (bridge w)) with
  | None => w
  | Some site =>
      broadcast (PSiteLeft sid (name site)) (Some sid)
        (set_sites (dict_del sid) (set_routing_table (purge_routes sid) w))
  end.
Proof.
  unfold unregister_site, broadcast.
  destruct (length (sites (bridge w))) as [|n] eqn:Hlen; simpl;
    destruct (dict_get sid (sites (bridge w))) as [site|] eqn:Hget; try done;
    pose proof (dict_del_length_lt _ _ _ Hget) as Hlt; try (exfalso; lia).
  apply (broadcast_loop_ext _ _ _ _ n).
  - apply unregister_site_n_run.
  - intros k w' Hw'. unfold unregister_site. apply unregister_site_n_fuel; lia.
  - simpl. lia.
Qed.

(** ** Routing table *)

Lemma routes_insert_all (sid : string) (ns : list string) :
  forall (rt : gmap string string) (node : string),
    foldl (fun rt node => <[node := sid]> rt) rt ns !! node
    = if decide (node ∈ ns) then Some sid else rt !! node.
Proof.
  induction ns as [|n ns IH]; intros rt node; cbn [foldl].
  - rewrite decide_False; [done | apply not_elem_of_nil].
  - rewrite IH. destruct (decide (node ∈ ns)) as [Hin|Hin].
    + rewrite decide_True; [done | by right].
    + destruct (decide (node = n)) as [->|Hne].
      * rewrite lookup_insert_eq, decide_True; [done | left].
      * rewrite lookup_insert_ne by done. rewrite decide_False; [done|].
        rewrite not_elem_of_cons. done.
Qed.

Lemma update_routing_sites_get sid ns w k :
  dict_get k (sites (bridge (update_routing sid ns w)))
  = match dict_get k (sites (bridge w)) with
    | Some s =>
        if decide (k = sid)
        then Some (mkSite (site_id s) (websocket s) (name s) (list_to_set ns)
                          (connected_at s) (last_heartbeat s)
                          (messages_relayed s) (bytes_relayed s))
        else Some s
    | None => None
    end.
Proof.
  unfold update_routing. simpl.
  destruct (dict_get sid (sites (bridge w))) as [s0|] eqn:Hsid; simpl.
  - rewrite dict_get_set. destruct (decide (k = sid)) as [->|Hne]; [by rewrite Hsid|].
    by destruct (dict_get k (sites (bridge w))).
  - destruct (decide (k = sid)) as [->|Hne]; [by rewrite Hsid|].
    by destruct (dict_get k (sites (bridge w))).
Qed.

Lemma update_routing_route sid ns w node :
  find_route node (update_routing sid ns w)
  = if decide (node ∈ ns) then Some sid else find_route node w.
Proof.
  unfold find_route, update_routing. simpl.
  destruct (dict_get sid (sites (bridge w))); simpl; apply routes_insert_all.
Qed.

Lemma run_route fg w w' node :
  run fg w w' ->
  find_route node w'
  = match find_route node w with
    | Some o =>
        if decide (is_Some (dict_get o (sites (bridge w)))
                   /\ dict_get o (sites (bridge w')) = None)
        then None else Some o
    | None => None
    end.
Proof.
  intros (ks & new & F & B & _). unfold find_route. rewrite B, evict_routes.
  destruct (routing_table (bridge w) !! node) as [o|]; [|done].
  rewrite evict_sites_get.
  destruct (decide (o ∈ ks)) as [Hin|Hin].
  - rewrite decide_True; [done|]. split; [|done].
    rewrite Forall_forall in F. by apply F.
  - rewrite decide_False; [done|]. intros [[s Hs] Hn]. congruence.
Qed.

(** The routing table is the history of reports and purges, read from the
    latest event back. *)
Lemma routes_follow_history_gone (node : string) (evs : list route_event) :
  forall gone,
    latest_owner node (reverse evs) gone
    = match foldl route_apply ∅ evs !! node with
      | Some o => if decide (o ∈ gone) then None else Some o
      | None => None
      end.
Proof.
  induction evs as [|ev evs IH] using rev_ind; intros gone.
  - simpl. by rewrite lookup_empty.
  - rewrite reverse_snoc, foldl_snoc. destruct ev as [sid ns|sid]; cbn [latest_owner route_apply].
    + rewrite routes_insert_all. destruct (decide (node ∈ ns)); [done | apply IH].
    + rewrite IH. unfold purge_routes. rewrite map_lookup_filter.
      destruct (foldl route_apply ∅ evs !! node) as [o|]; simpl; [|done].
      destruct (decide (o = sid)) as [->|Hne].
      * rewrite decide_True by left. by rewrite option_guard_False by (simpl; tauto).
      * rewrite option_guard_True by done. simpl.
        apply decide_ext. rewrite elem_of_cons. tauto.
Qed.

Lemma routes_follow_history (node : string) (evs : list route_event) :
  foldl route_apply ∅ evs !! node = latest_owner node (reverse evs) [].
Proof.
  rewrite routes_follow_history_gone.
  destruct (foldl route_apply ∅ evs !! node) as [o|]; [|done].
  rewrite decide_False; [done | apply not_elem_of_nil].
Qed.

(** The operations of the bridge change the routing table by these events
    only. *)
Lemma update_routing_event sid ns w :
  routing_table (bridge (update_routing sid ns w))
  = route_apply (routing_table (bridge w)) (Reports sid ns).
Proof. unfold update_routing. simpl. by destruct (dict_get sid (sites (bridge w))). Qed.

Lemma run_route_events fg w w' :
  run fg w w' ->
  exists ks,
    Forall (fun k => is_Some (dict_get k (sites (bridge w)))
                     /\ dict_get k (sites (bridge w')) = None) ks /\
    routing_table (bridge w') = foldl route_apply (routing_table (bridge w)) (Leaves <$> ks).
Proof.
  intros (ks & new & F & B & _). exists ks. split.
  - apply Forall_forall. intros k Hk. rewrite Forall_forall in F. split; [by apply F|].
    rewrite B, evict_sites_get. by rewrite decide_True.
  - rewrite B. unfold evict. simpl. clear. generalize (routing_table (bridge w)) as rt.
    induction ks as [|k ks IH]; intros rt.
    + apply map_filter_id. intros. apply not_elem_of_nil.
    + simpl. rewrite <- IH. unfold purge_routes. rewrite map_filter_filter.
      apply map_filter_ext. intros i x _. simpl. rewrite elem_of_cons. tauto.
Qed.

(** ** Site registry: [unregister_site] *)



(** ** Routing table: [update_routing], [find_route] *)

(** C3, as stated, fails: site [A] reports [N], and its node set is
    [{N}]; then it reports no node at all: its node set is empty and [N]
    still resolves to [A]. *)
Lemma dropped_address_still_resolves :
  let w1 := update_routing "A" ["N"] (register_site 1 "A" "" 0 w_start) in
  let w2 := update_routing "A" [] w1 in
  (exists s, dict_get "A" (sites (bridge w1)) = Some s /\ nodes s = {["N"]}) /\
  (exists s, dict_get "A" (sites (bridge w2)) = Some s /\ nodes s = ∅) /\
  find_route "N" w2 = Some "A" /\
  find_route "N" w2 <> None.
Proof.
  cbv zeta. split_and!.
  - eexists. split; [vm_compute; reflexivity | apply leibniz_equiv; set_solver].
  - eexists. split; [vm_compute; reflexivity | reflexivity].
  - vm_compute. reflexivity.
  - vm_compute. discriminate.
Qed.

(** C3 (amended): a [nodes_update] makes the reporting site the owner of
    every address in its list, whoever owned it, and leaves every other
    address with the owner it had (also an address the site reported
    before and no longer lists); it replaces the node set of the
    reporting site, when the site is registered, by the set of the
    addresses in the list, and changes nothing else in the registry;
    [unregister_site] makes absent exactly the addresses whose owner it
    removes from the registry, and keeps the others.  So an address
    resolves to the site of the most recent [nodes_update] that lists it,
    until that site is unregistered. *)
Theorem routing_last_writer_wins sid ns w node :
  find_route node (update_routing sid ns w)
  = (if decide (node ∈ ns) then Some sid else find_route node w)
  /\
  sites (bridge (update_routing sid ns w))
  = match dict_get sid (sites (bridge w)) with
    | Some s =>
        dict_set sid (mkSite (site_id s) (websocket s) (name s) (list_to_set ns)
                             (connected_at s) (last_heartbeat s)
                             (messages_relayed s) (bytes_relayed s))
                 (sites (bridge w))
    | None => sites (bridge w)
    end
  /\
  (forall k,
     dict_get k (sites (bridge (update_routing sid ns w)))
     = match dict_get k (sites (bridge w)) with
       | Some s =>
           if decide (k = sid)
           then Some (mkSite (site_id s) (websocket s) (name s) (list_to_set ns)
                             (connected_at s) (last_heartbeat s)
                             (messages_relayed s) (bytes_relayed s))
           else Some s
       | None => None
       end)
  /\
  (forall s' a, dict_get sid (sites (bridge (update_routing sid ns w))) = Some s' ->
     a ∈ nodes s' <-> a ∈ ns)
  /\
  find_route node (unregister_site sid w)
  = match find_route node w with
    | Some owner =>
        if decide (is_Some (dict_get owner (sites (bridge w)))
                   /\ dict_get owner (sites (bridge (unregister_site sid w))) = None)
        then None else Some owner
    | None => None
    end.
Proof.
  split_and!.
  - apply update_routing_route.
  - unfold update_routing. simpl. by destruct (dict_get sid (sites (bridge w))).
  - intros k. apply update_routing_sites_get.
  - intros s' a Hs'. rewrite update_routing_sites_get in Hs'.
    destruct (dict_get sid (sites (bridge w))) as [s|]; [|done].
    rewrite decide_True in Hs' by done. simplify_eq. simpl. apply elem_of_list_to_set.
  - apply (run_route _ _ _ _ (unregister_site_run sid w)).
Qed.

(** The scenario of the specification: [s1] reports [N], then [s2] reports
    [N]; [N] resolves to [s2], and to nothing once [s2] is unregistered. *)
Example routing_overwrite_scenario :
  let w1 := update_routing "s2" ["N"] (update_routing "s1" ["N"] w_s1_s2) in
  find_route "N" w1 = Some "s2" /\ find_route "N" (unregister_site "s2" w1) = None.
Proof.
  cbv zeta. split.
  - rewrite update_routing_route. apply decide_True. left.
  - rewrite (run_route _ _ _ _ (unregister_site_run _ _)), update_routing_route.
    rewrite decide_True by left.
    apply decide_True. split; [|apply unregister_site_n_gone].
    vm_compute. eauto.
Qed.

(** ** Deduplicator: [deduplicate_message] *)

Section Dedup.
Variable json_dumps_sorted : message -> string.
Variable sha256_hexdigest : string -> string.

Let msg_hash (m : message) : string := prefix 16 (sha256_hexdigest (json_dumps_sorted m)).
Local Abbreviation dedup := (deduplicate_message json_dumps_sorted sha256_hexdigest).

Lemma seen_after_cleaning (now : Z) (seen : gmap string Z) (h : string) :
  filter (fun e => now - e.2 < message_ttl) seen !! h
  = match seen !! h with
    | Some t => if decide (now - t < message_ttl) then Some t else None
    | None => None
    end.
Proof.
  rewrite map_lookup_filter. destruct (seen !! h) as [t|]; simpl; [|done].
  case_decide; [by rewrite option_guard_True | by rewrite option_guard_False].
Qed.

Lemma dedup_duplicate (m : message) (now t : Z) (w : world) :
  seen_messages (bridge w) !! msg_hash m = Some t -> now - t < 60 ->
  dedup m now w = (false, set_seen_messages (filter (fun e => now - e.2 < message_ttl)) w).
Proof.
  intros Hh Ht. unfold deduplicate_message. simpl.
  fold (msg_hash m). rewrite seen_after_cleaning, Hh. unfold message_ttl.
  by rewrite decide_True.
Qed.

Lemma dedup_new (m : message) (now : Z) (w : world) :
  match seen_messages (bridge w) !! msg_hash m with
  | Some t => ~ now - t < 60
  | None => True
  end ->
  dedup m now w
  = (true, set_seen_messages (insert (msg_hash m) now)
             (set_seen_messages (filter (fun e => now - e.2 < message_ttl)) w)).
Proof.
  intros Hh. unfold deduplicate_message. simpl.
  fold (msg_hash m). rewrite seen_after_cleaning. unfold message_ttl.
  destruct (seen_messages (bridge w) !! msg_hash m) as [t|]; [|done].
  by rewrite decide_False.
Qed.

(** C4: the fingerprint of a message that is not in the cache, or is in
    it with an age of 60 seconds or more, is reported new and stored with
    the current time; one that is in the cache with an age of less than
    60 seconds is reported duplicate and keeps the time of its first
    arrival.  The other entries are kept when younger than 60 seconds
    and dropped otherwise. *)
Theorem dedup_first_seen_window (m : message) (now : Z) (w : world) :
  let r := deduplicate_message json_dumps_sorted sha256_hexdigest m now w in
  let seen := seen_messages (bridge w) in
  let seen' := seen_messages (bridge r.2) in
  match seen !! msg_hash m with
  | None => r.1 = true /\ seen' !! msg_hash m = Some now
  | Some t =>
      if decide (now - t < 60)
      then r.1 = false /\ seen' !! msg_hash m = Some t
      else r.1 = true /\ seen' !! msg_hash m = Some now
  end
  /\ forall h, h = msg_hash m \/
       seen' !! h = match seen !! h with
                    | Some t => if decide (now - t < 60) then Some t else None
                    | None => None
                    end.
Proof.
  cbv zeta. split.
  - destruct (seen_messages (bridge w) !! msg_hash m) as [t|] eqn:Hh.
    + destruct (decide (now - t < 60)) as [Ht|Ht].
      * rewrite (dedup_duplicate m now t w Hh Ht). simpl.
        rewrite seen_after_cleaning, Hh. unfold message_ttl. by rewrite decide_True.
      * rewrite dedup_new by (by rewrite Hh). simpl. by rewrite lookup_insert_eq.
    + rewrite dedup_new by (by rewrite Hh). simpl. by rewrite lookup_insert_eq.
  - intros h. destruct (decide (h = msg_hash m)) as [|Hne]; [by left | right].
    destruct (seen_messages (bridge w) !! msg_hash m) as [t|] eqn:Hh;
      [destruct (decide (now - t < 60)) as [Ht|Ht]|];
      [rewrite (dedup_duplicate m now t w Hh Ht) | rewrite dedup_new by (by rewrite Hh) ..];
      simpl; rewrite ?lookup_insert_ne by done; apply seen_after_cleaning.
Qed.

(** Every replay within 60 seconds of the first arrival is suppressed,
    however many there are and however they are spaced, and the first
    check 60 seconds or more after the first arrival is reported new. *)
Lemma replays_suppressed (m : message) (t0 : Z) (ts : list Z) :
  forall w,
    seen_messages (bridge w) !! msg_hash m = Some t0 ->
    Forall (fun t => t - t0 < 60) ts ->
    let r := replay json_dumps_sorted sha256_hexdigest m ts w in
    r.1 = map (fun _ => false) ts /\
    seen_messages (bridge r.2) !! msg_hash m = Some t0 /\
    forall t, ~ t - t0 < 60 -> (dedup m t r.2).1 = true.
Proof.
  induction ts as [|t ts IH]; intros w Hseen Hts; cbv zeta.
  - split_and!; [done | done |]. intros t Ht.
    simpl.  rewrite dedup_new; [done | by rewrite Hseen].
  - apply Forall_cons in Hts as [Ht Hts].
    pose proof (dedup_duplicate m t t0 w Hseen Ht) as Hd.
    assert (seen_messages (bridge (dedup m t w).2) !! msg_hash m = Some t0) as Hs.
    { rewrite Hd. simpl. rewrite seen_after_cleaning, Hseen. unfold message_ttl.
      by rewrite decide_True. }
    destruct (IH (dedup m t w).2 Hs Hts) as (IH1 & IH2 & IH3).
    simpl. 
    rewrite IH1. split_and!; [by rewrite Hd | done | done].
Qed.
End Dedup.

(** ** Relay engine: [relay_to_site], [handle_message] *)

Section RelayFacts.
Variable json_dumps : payload -> string.
Variable json_dumps_sorted : message -> string.
Variable sha256_hexdigest : string -> string.

Local Abbreviation relay := (relay_to_site json_dumps).
Local Abbreviation dedup := (deduplicate_message json_dumps_sorted sha256_hexdigest).
Local Abbreviation handle := (handle_message json_dumps json_dumps_sorted sha256_hexdigest).


Lemma relay_to_site_eq target p w :
  relay target p w =
  match dict_get target (sites (bridge w)) with
  | None => (false, w)
  | Some site =>
      if decide (websocket site ∈ closed w)
      then (false, unregister_site target w)
      else (true, set_sites (dict_set target (relayed json_dumps p site))
                    (mkWorld (bridge w) (closed w) (wire w ++ [(websocket site, p)])))
  end.
Proof.
  unfold relay_to_site, send.
  destruct (dict_get target (sites (bridge w))) as [site|]; [|done].
  by case_decide.
Qed.

(** What [relay_to_site] does to the records: the target's counters grow
    when the frame is delivered; no other record changes, and records
    are only lost by unregistering. *)
Lemma relay_to_site_sites target p w k s' :
  dict_get k (sites (bridge (relay target p w).2)) = Some s' ->
  exists s, dict_get k (sites (bridge w)) = Some s /\
            (s' = s \/ (k = target /\ s' = relayed json_dumps p s /\ (relay target p w).1 = true)).
Proof.
  rewrite relay_to_site_eq.
  destruct (dict_get target (sites (bridge w))) as [site|] eqn:Ht; simpl; [|by eauto].
  case_decide; simpl.
  - intros Hs. apply (run_sites_get _ _ _ _ _ (unregister_site_run target w)) in Hs. eauto.
  - rewrite dict_get_set. case_decide as Hk; intros Hs; simplify_eq; eauto 10.
Qed.

Lemma dedup_bridge m now w :
  sites (bridge (dedup m now w).2) = sites (bridge w) /\
  routing_table (bridge (dedup m now w).2) = routing_table (bridge w) /\
  total_messages (bridge (dedup m now w).2) = total_messages (bridge w) /\
  closed (dedup m now w).2 = closed w /\
  wire (dedup m now w).2 = wire w.
Proof.
  unfold deduplicate_message.
  by destruct (seen_messages _ !! _).
Qed.

(** The branches of [handle_message]. *)

Lemma handle_heartbeat sid m now w :
  default "" (msg_type m) = "heartbeat" ->
  handle sid m now w =
  (None,
   match dict_get sid (sites (bridge w)) with
   | Some s =>
       set_sites (dict_set sid (mkSite (site_id s) (websocket s) (name s) (nodes s)
                                       (connected_at s) now
                                       (messages_relayed s) (bytes_relayed s))) w
   | None => w
   end).
Proof.
  intros Ht. unfold handle_message. rewrite Ht. simpl.
  by destruct (dict_get sid (sites (bridge w))).
Qed.

Lemma handle_nodes_update sid m now w :
  default "" (msg_type m) = "nodes_update" ->
  handle sid m now w =
  let w1 := update_routing sid (default [] (msg_nodes m)) w in
  (match dict_get sid (sites (bridge w1)) with Some _ => None | None => Some KeyError end, w1).
Proof.
  intros Ht. unfold handle_message. rewrite Ht. simpl.
  by destruct (dict_get sid (sites (bridge (update_routing _ _ _)))).
Qed.

Lemma handle_mesh_message sid m now w :
  default "" (msg_type m) = "mesh_message" ->
  handle sid m now w =
  (None,
   match dedup m now w with
   | (false, w1) => w1
   | (true, w1) =>
       let w2 := set_total_messages S w1 in
       match unicast_target sid m w2 with
       | Some target_site => (relay target_site (PMsg m) w2).2
       | None => broadcast (PMsg m) (Some sid) w2
       end
   end).
Proof.
  intros Ht. unfold handle_message, unicast_target. rewrite Ht. simpl.
  destruct (dedup m now w) as [[] w1]; [|done].
  destruct (msg_dest m) as [dest|]; [|done].
  destruct (decide (dest = "")); [done|].
  destruct (find_route dest _) as [t|]; [|done].
  by destruct (decide (t <> "" /\ t <> sid)).
Qed.

Lemma handle_query_sites sid m now w :
  default "" (msg_type m) = "query_sites" ->
  handle sid m now w =
  (None,
   (relay sid
      (PSitesList (map (fun e : string * Site =>
                          SiteInfo (prefix 16 e.1) (name e.2) (size (nodes e.2)) None)
                       (sites (bridge w)))) w).2).
Proof. intros Ht. unfold handle_message. rewrite Ht. done. Qed.

Lemma handle_unknown sid m now w :
  default "" (msg_type m) <> "heartbeat" ->
  default "" (msg_type m) <> "nodes_update" ->
  default "" (msg_type m) <> "mesh_message" ->
  default "" (msg_type m) <> "query_sites" ->
  handle sid m now w =
  (None,
   match dedup m now w with
   | (true, w1) => broadcast (PMsg m) (Some sid) w1
   | (false, w1) => w1
   end).
Proof.
  intros H1 H2 H3 H4. unfold handle_message.
  rewrite !decide_False by done.
  by destruct (dedup m now w) as [[] w1].
Qed.
End RelayFacts.

Section HandleMessage.
Variable json_dumps : payload -> string.
Variable json_dumps_sorted : message -> string.
Variable sha256_hexdigest : string -> string.

Local Abbreviation relay := (relay_to_site json_dumps).
Local Abbreviation dedup := (deduplicate_message json_dumps_sorted sha256_hexdigest).
Local Abbreviation handle := (handle_message json_dumps json_dumps_sorted sha256_hexdigest).

(** C10: a [nodes_update] is handled without an exception exactly when
    its site is in the registry.  For a site that is not, [KeyError] is
    raised, after the routing table was made to send every reported
    address to that site, which stays out of the registry. *)
Theorem nodes_update_raises_for_unregistered_site sid m now w :
  msg_type m = Some "nodes_update" ->
  let r := handle_message json_dumps json_dumps_sorted sha256_hexdigest sid m now w in
  (r.1 = None <-> is_Some (dict_get sid (sites (bridge w)))) /\
  (dict_get sid (sites (bridge w)) = None ->
     r.1 = Some KeyError /\
     (forall node, node ∈ default [] (msg_nodes m) -> find_route node r.2 = Some sid) /\
     dict_get sid (sites (bridge r.2)) = None).
Proof.
  intros Ht. cbv zeta. rewrite handle_nodes_update by (by rewrite Ht).
  cbv zeta. cbn [fst snd]. rewrite update_routing_sites_get.
  destruct (dict_get sid (sites (bridge w))) as [s|] eqn:Hs.
  - rewrite decide_True by done. split; [|done]. split; [eauto | done].
  - split; [split; [done | by intros []]|]. intros _. split_and!; [done | | done].
    intros node Hin. rewrite update_routing_route. by apply decide_True.
Qed.

(** What [handle_message] does to the records of the sites for a message
    that is not a heartbeat: a record that is still there is the one
    that was there, but for the node set of the sender of a
    [nodes_update] and the counters of the site a frame was relayed
    to. *)
Lemma handle_message_records sid m now w k s' :
  default "" (msg_type m) <> "heartbeat" ->
  dict_get k (sites (bridge (handle sid m now w).2)) = Some s' ->
  exists s, dict_get k (sites (bridge w)) = Some s /\
    (s' = s \/
     (default "" (msg_type m) = "nodes_update" /\ k = sid /\
      s' = mkSite (site_id s) (websocket s) (name s) (list_to_set (default [] (msg_nodes m)))
                  (connected_at s) (last_heartbeat s) (messages_relayed s) (bytes_relayed s)) \/
     (default "" (msg_type m) = "mesh_message" /\ k <> sid /\ (dedup m now w).1 = true /\
      unicast_target sid m w = Some k /\ s' = relayed json_dumps (PMsg m) s) \/
     (default "" (msg_type m) = "query_sites" /\ k = sid /\ exists p, s' = relayed json_dumps p s)).
Proof.
  intros Hhb.
  destruct (decide (default "" (msg_type m) = "nodes_update")) as [Ht|Hnu].
  { rewrite handle_nodes_update by done. cbv zeta. cbn [snd].
    rewrite update_routing_sites_get.
    destruct (dict_get k (sites (bridge w))) as [s|]; [|done].
    case_decide; intros; simplify_eq; eauto 10. }
  destruct (decide (default "" (msg_type m) = "mesh_message")) as [Ht|Hmm].
  { rewrite handle_mesh_message by done. cbn [snd].
    pose proof (dedup_bridge json_dumps_sorted sha256_hexdigest m now w)
      as (Hds & Hdr & _).
    destruct (dedup m now w) as [[] w1] eqn:Hd; cbn [fst snd] in *.
    - cbv zeta.
      assert (unicast_target sid m (set_total_messages S w1) = unicast_target sid m w) as ->.
      { unfold unicast_target, find_route. simpl. by rewrite Hdr. }
      destruct (unicast_target sid m w) as [t|] eqn:Hu.
      + intros Hs. apply relay_to_site_sites in Hs as (s & Hs & Hcase).
        simpl in Hs. rewrite Hds in Hs. exists s. split; [done|].
        destruct Hcase as [->|(-> & -> & _)]; [by left|].
        right; right; left. split_and!; try done.
        unfold unicast_target in Hu. repeat case_match; simplify_eq.
        match goal with a : _ /\ _ |- _ => by destruct a end.
      + intros Hs. apply (run_sites_get _ _ _ _ _ (broadcast_run _ _ _)) in Hs.
        simpl in Hs. rewrite Hds in Hs. eauto.
    - rewrite Hds. eauto. }
  destruct (decide (default "" (msg_type m) = "query_sites")) as [Ht|Hqs].
  { rewrite handle_query_sites by done. cbn [snd].
    intros Hs. apply relay_to_site_sites in Hs as (s & Hs & Hcase).
    exists s. split; [done|]. destruct Hcase as [->|(-> & -> & _)]; [by left|].
    right; right; right. eauto. }
  rewrite handle_unknown by done. cbn [snd].
  pose proof (dedup_bridge json_dumps_sorted sha256_hexdigest m now w) as (Hds & _).
 
  destruct (dedup m now w) as [[] w1]; cbn [fst snd] in *.
  - intros Hs. apply (run_sites_get _ _ _ _ _ (broadcast_run _ _ _)) in Hs.
    rewrite Hds in Hs. eauto.
  - rewrite Hds. eauto.
Qed.

(** C2 (amended): [last_heartbeat] is set to the current time by a
    [heartbeat] message, and by no other: after a message of any other
    kind, every site that is still registered has the [last_heartbeat]
    it had before. *)
Theorem last_heartbeat_only_set_by_heartbeat sid m now w :
  let r := handle_message json_dumps json_dumps_sorted sha256_hexdigest sid m now w in
  if decide (default "" (msg_type m) = "heartbeat") then
    r.1 = None /\
    forall k,
      dict_get k (sites (bridge r.2))
      = if decide (k = sid)
        then (fun s => mkSite (site_id s) (websocket s) (name s) (nodes s) (connected_at s)
                              now (messages_relayed s) (bytes_relayed s))
               <$> dict_get sid (sites (bridge w))
        else dict_get k (sites (bridge w))
  else
    forall k s', dict_get k (sites (bridge r.2)) = Some s' ->
      exists s, dict_get k (sites (bridge w)) = Some s /\ last_heartbeat s' = last_heartbeat s.
Proof.
  cbv zeta. case_decide as Ht.
  - rewrite handle_heartbeat by done. split; [done|]. intros k. cbn [snd].
    destruct (dict_get sid (sites (bridge w))) as [s|] eqn:Hs; simpl.
    + rewrite dict_get_set. by case_decide.
    + case_decide; by simplify_eq.
  - intros k s' Hs. apply handle_message_records in Hs as (s & Hs & Hcase); [|done].
    exists s. split; [done|].
    destruct Hcase as [->|[(_ & _ & ->)|[(_ & _ & _ & _ & ->)|(_ & _ & p & ->)]]]; done.
Qed.
End HandleMessage.

(** C10, on a run: [s1] is evicted by the heartbeat monitor while its
    connection stays open; its next [nodes_update] raises [KeyError] and
    leaves a route to the unregistered site. *)
Lemma nodes_update_after_eviction :
  dict_get "s1" (sites (bridge w_s1_evicted)) = None /\
  (handle_message_ex "s1" (nodes_msg ["0xAAA"]) 101 w_s1_evicted).1 = Some KeyError /\
  find_route "0xAAA" (handle_message_ex "s1" (nodes_msg ["0xAAA"]) 101 w_s1_evicted).2
  = Some "s1".
Proof.
  assert (dict_get "s1" (sites (bridge w_s1_evicted)) = None) as Hgone
    by (vm_compute; reflexivity).
  destruct (nodes_update_raises_for_unregistered_site dumps_ex sorted_ex sha256_ex
              "s1" (nodes_msg ["0xAAA"]) 101 w_s1_evicted eq_refl) as [_ H].
  destruct (H Hgone) as (Hr & Hroute & _).
  split_and!; [exact Hgone | exact Hr | apply Hroute; left].
Defined.

(** C2, as stated, fails: [s1] registered at time 0 sends a
    [nodes_update] and then a [mesh_message] at time 50; both are handled
    and its [last_heartbeat] is still 0. *)
Lemma traffic_does_not_touch_last_heartbeat :
  let w1 := (handle_message_ex "s1" (nodes_msg ["0xAAA"]) 50 w_s1_s2).2 in
  let w2 := (handle_message_ex "s1" (mesh_msg "0xBBB" "hi") 50 w1).2 in
  (exists s, dict_get "s1" (sites (bridge w_s1_s2)) = Some s /\ last_heartbeat s = 0) /\
  (exists s, dict_get "s1" (sites (bridge w1)) = Some s /\
             last_heartbeat s = 0 /\ last_heartbeat s <> 50) /\
  (exists s, dict_get "s1" (sites (bridge w2)) = Some s /\
             last_heartbeat s = 0 /\ last_heartbeat s <> 50).
Proof.
  cbv zeta. split_and!; eexists; (split; [vm_compute; reflexivity|]); done.
Qed.

Lemma run_totals fg w w' :
  run fg w w' ->
  total_messages (bridge w') = total_messages (bridge w) /\
  seen_messages (bridge w') = seen_messages (bridge w).
Proof. intros (ks & new & _ & B & _). by rewrite B. Qed.

Lemma run_wire fg w w' :
  run fg w w' ->
  exists new, wire w' = wire w ++ new /\
    forall c q, (c, q) ∈ new -> (exists k nm, q = PSiteLeft k nm) \/ fg c q.
Proof.
  intros (ks & new & _ & _ & _ & W & N). exists new. split; [done|].
  intros c q Hin. destruct (N c q Hin) as [(k & s & -> & _)|]; eauto.
Qed.

Section Forwarding.
Variable json_dumps : payload -> string.
Variable json_dumps_sorted : message -> string.
Variable sha256_hexdigest : string -> string.

Local Abbreviation relay := (relay_to_site json_dumps).
Local Abbreviation dedup := (deduplicate_message json_dumps_sorted sha256_hexdigest).
Local Abbreviation handle := (handle_message json_dumps json_dumps_sorted sha256_hexdigest).

Lemma relay_to_site_totals target p w :
  total_messages (bridge (relay target p w).2) = total_messages (bridge w).
Proof.
  rewrite relay_to_site_eq.
  destruct (dict_get target (sites (bridge w))); [|done].
  case_decide; [|done]. apply (run_totals _ _ _ (unregister_site_run target w)).
Qed.

(** Where the frames of [relay_to_site] go. *)
Lemma relay_to_site_wire target p w :
  exists new, wire (relay target p w).2 = wire w ++ new /\
    forall c q, (c, q) ∈ new ->
      (exists k nm, q = PSiteLeft k nm) \/
      (q = p /\ exists s, dict_get target (sites (bridge w)) = Some s /\ websocket s = c).
Proof.
  rewrite relay_to_site_eq.
  destruct (dict_get target (sites (bridge w))) as [site|] eqn:Ht.
  - case_decide.
    + destruct (run_wire _ _ _ (unregister_site_run target w)) as (new & W & N).
      exists new. split; [done|]. intros c q Hin. destruct (N c q Hin) as [|[]]; auto.
    + exists [(websocket site, p)]. split; [done|].
      intros c q Hin%list_elem_of_singleton. injection Hin as -> ->. right. eauto.
  - exists []. split; [by rewrite app_nil_r|]. intros c q Hin. by apply elem_of_nil in Hin.
Qed.

(** C7 (amended): a new [mesh_message] adds one to the global message
    counter and a duplicate adds nothing.  The counters
    [messages_relayed] and [bytes_relayed] are those of the site a frame
    is relayed to: they grow by one and by the length of the frame on
    the record of the site the message is unicast to, when it is
    delivered there.  The record of the sender keeps its counters, and a
    broadcast changes no counter. *)
Theorem relay_counters_belong_to_target sid m now w :
  msg_type m = Some "mesh_message" ->
  let r := handle_message json_dumps json_dumps_sorted sha256_hexdigest sid m now w in
  let is_new := (deduplicate_message json_dumps_sorted sha256_hexdigest m now w).1 in
  total_messages (bridge r.2)
  = (if is_new then S (total_messages (bridge w)) else total_messages (bridge w)) /\
  (forall s', dict_get sid (sites (bridge r.2)) = Some s' ->
     dict_get sid (sites (bridge w)) = Some s') /\
  (forall k s', dict_get k (sites (bridge r.2)) = Some s' ->
     exists s, dict_get k (sites (bridge w)) = Some s /\
       (s' = s \/
        (is_new = true /\ unicast_target sid m w = Some k /\ k <> sid /\
         websocket s' = websocket s /\
         messages_relayed s' = S (messages_relayed s) /\
         bytes_relayed s' = (bytes_relayed s + String.length (json_dumps (PMsg m)))%nat))) /\
  (forall t s, is_new = true -> unicast_target sid m w = Some t ->
     dict_get t (sites (bridge w)) = Some s -> websocket s ∉ closed w ->
     dict_get t (sites (bridge r.2)) = Some (relayed json_dumps (PMsg m) s)) /\
  (unicast_target sid m w = None ->
     forall k s', dict_get k (sites (bridge r.2)) = Some s' ->
       dict_get k (sites (bridge w)) = Some s').
Proof.
  intros Ht. assert (default "" (msg_type m) = "mesh_message") as Ht' by (by rewrite Ht).
  assert (default "" (msg_type m) <> "heartbeat") as Hhb by (by rewrite Ht').
  cbv zeta.
  assert (forall k s', dict_get k (sites (bridge (handle sid m now w).2)) = Some s' ->
     exists s, dict_get k (sites (bridge w)) = Some s /\
       (s' = s \/
        ((dedup m now w).1 = true /\ unicast_target sid m w = Some k /\ k <> sid /\
         s' = relayed json_dumps (PMsg m) s))) as Hrec.
  { intros k s' Hs.
    apply handle_message_records in Hs as (s & Hs & Hcase); [|done].
    exists s. split; [done|].
    destruct Hcase as [->|[(Hx & _)|[(_ & Hne & Hn & Hu & ->)|(Hx & _)]]];
      [by left | congruence | | congruence].
    right. done. }
  split_and!.
  - rewrite handle_mesh_message by done. cbn [snd].
    pose proof (dedup_bridge json_dumps_sorted sha256_hexdigest m now w)
      as (_ & _ & Hdt & _).
    destruct (dedup m now w) as [[] w1]; cbn [fst snd] in *; [|done].
    cbv zeta. destruct (unicast_target sid m (set_total_messages S w1)).
    + rewrite relay_to_site_totals. simpl. by rewrite Hdt.
    + rewrite (proj1 (run_totals _ _ _ (broadcast_run _ _ _))). simpl. by rewrite Hdt.
  - intros s' Hs. destruct (Hrec sid s' Hs) as (s & Hs0 & [->|(_ & _ & Hne & _)]); done.
  - intros k s' Hs. destruct (Hrec k s' Hs) as (s & Hs0 & [->|(Hn & Hu & Hne & ->)]);
      exists s; (split; [done|]); [by left | right; done].
  - intros t s Hn Hu Hs Hopen.
    rewrite handle_mesh_message by done. cbn [snd].
    pose proof (dedup_bridge json_dumps_sorted sha256_hexdigest m now w)
      as (Hds & Hdr & _ & Hdc & _).
    destruct (dedup m now w) as [[] w1]; cbn [fst snd] in *; [|done].
    cbv zeta.
    assert (unicast_target sid m (set_total_messages S w1) = Some t) as ->.
    { rewrite <- Hu. unfold unicast_target, find_route. simpl. by rewrite Hdr. }
    rewrite relay_to_site_eq. simpl. rewrite Hds, Hs, Hdc.
    rewrite decide_False by done. simpl. rewrite dict_get_set. by rewrite decide_True.
  - intros Hu k s' Hs. destruct (Hrec k s' Hs) as (s & Hs0 & [->|(_ & Hu' & _)]); congruence.
Qed.

(** C5: no frame carrying a [mesh_message] is sent to the connection it
    came from.  [origin] is the websocket whose handler identified
    itself as [sid]: it is registered under no other id.  Every frame
    with the message goes to the websocket of a site registered under
    another id. *)
Theorem mesh_message_no_echo sid m now w origin :
  msg_type m = Some "mesh_message" ->
  (forall k s, (k, s) ∈ sites (bridge w) -> websocket s = origin -> k = sid) ->
  let r := handle_message json_dumps json_dumps_sorted sha256_hexdigest sid m now w in
  exists new,
    wire r.2 = wire w ++ new /\
    ((origin, PMsg m) ∉ new) /\
    forall c, (c, PMsg m) ∈ new ->
      exists k s, (k, s) ∈ sites (bridge w) /\ k <> sid /\ websocket s = c.
Proof.
  intros Ht Horigin. cbv zeta.
  assert (exists new, wire (handle sid m now w).2 = wire w ++ new /\
            forall c, (c, PMsg m) ∈ new ->
              exists k s, (k, s) ∈ sites (bridge w) /\ k <> sid /\ websocket s = c)
    as (new & W & N).
  { rewrite handle_mesh_message by (by rewrite Ht). cbn [snd].
    pose proof (dedup_bridge json_dumps_sorted sha256_hexdigest m now w)
      as (Hds & Hdr & _ & _ & Hdw).
    destruct (dedup m now w) as [[] w1]; cbn [fst snd] in *.
    - cbv zeta. destruct (unicast_target sid m _) as [t|] eqn:Hu.
      + destruct (relay_to_site_wire t (PMsg m) (set_total_messages S w1))
          as (new & W & N).
        exists new. split; [by rewrite W; simpl; rewrite Hdw|].
        intros c Hin. destruct (N c _ Hin) as [(k & nm & ?)|(_ & s & Hs & Hc)]; [done|].
        simpl in Hs. rewrite Hds in Hs. exists t, s. split_and!; [|  | done].
        * by apply dict_get_Some_elem.
        * unfold unicast_target in Hu. repeat case_match; simplify_eq.
          match goal with a : _ /\ _ |- _ => by destruct a end.
      + destruct (run_wire _ _ _ (broadcast_run (PMsg m) (Some sid) (set_total_messages S w1)))
          as (new & W & N).
        exists new. split; [by rewrite W; simpl; rewrite Hdw|].
        intros c Hin.
        destruct (N c _ Hin) as [(k & nm & ?)|(_ & k & s & Hks & Hk & Hc)]; [done|].
        simpl in Hks. rewrite Hds in Hks. exists k, s. split_and!; [done | congruence | done].
    - exists []. split; [by rewrite app_nil_r, Hdw|].
      intros c Hin. by apply elem_of_nil in Hin. }
  exists new. split_and!; [done | | done].
  intros Hin. destruct (N origin Hin) as (k & s & Hks & Hne & Hc).
  by apply Hne, (Horigin k s).
Qed.
End Forwarding.

(** C7, as stated, fails: [s1] sends a new [mesh_message] for a node of
    [s2]; the frame is delivered to [s2], and the counters of the sender
    stay at 0 while those of [s2] grow.  A new message for an unknown node
    is broadcast, delivered to [s2], and no counter changes. *)
Lemma sender_counters_not_incremented :
  let w1 := (handle_message_ex "s1" (mesh_msg "0xBBB" "hi") 8 w_nodes).2 in
  let w2 := (handle_message_ex "s1" (mesh_msg "0xCCC" "yo") 9 w_nodes).2 in
  (2%nat, PMsg (mesh_msg "0xBBB" "hi")) ∈ wire w1 /\
  (exists s, dict_get "s1" (sites (bridge w1)) = Some s /\
             messages_relayed s = 0%nat /\ bytes_relayed s = 0%nat) /\
  (exists s, dict_get "s2" (sites (bridge w1)) = Some s /\
             messages_relayed s = 1%nat /\ bytes_relayed s = 14%nat) /\
  (2%nat, PMsg (mesh_msg "0xCCC" "yo")) ∈ wire w2 /\
  (exists s, dict_get "s1" (sites (bridge w2)) = Some s /\
             messages_relayed s = 0%nat /\ bytes_relayed s = 0%nat) /\
  (exists s, dict_get "s2" (sites (bridge w2)) = Some s /\
             messages_relayed s = 0%nat /\ bytes_relayed s = 0%nat).
Proof.
  cbv zeta. split_and!;
    try (eexists; split; [vm_compute; reflexivity | split; reflexivity]).
  - vm_compute. set_solver.
  - vm_compute. set_solver.
Qed.

(** C7, on the end-to-end scenario of the specification: the message of
    [s1] for [0xBBB] makes the global counter 1 and is counted on the
    record of [s2]. *)
Lemma relay_counters_end_to_end :
  msg_type (mesh_msg "0xBBB" "hi") = Some "mesh_message" /\
  total_messages (bridge (handle_message_ex "s1" (mesh_msg "0xBBB" "hi") 8 w_nodes).2) = 1%nat /\
  exists s, dict_get "s2" (sites (bridge w_nodes)) = Some s /\
    dict_get "s2" (sites (bridge (handle_message_ex "s1" (mesh_msg "0xBBB" "hi") 8 w_nodes).2))
    = Some (relayed dumps_ex (PMsg (mesh_msg "0xBBB" "hi")) s).
Proof.
  pose proof (relay_counters_belong_to_target dumps_ex sorted_ex sha256_ex
                "s1" (mesh_msg "0xBBB" "hi") 8 w_nodes eq_refl) as H.
  cbv zeta in H. destruct H as (Htot & _ & _ & Hdel & _).
  split; [reflexivity|]. split.
  - unfold handle_message_ex. rewrite Htot. vm_compute. reflexivity.
  - eexists. split; [vm_compute; reflexivity|].
    apply Hdel; [vm_compute; reflexivity .. | vm_compute; apply not_elem_of_nil].
Defined.

(** C5, on the same scenario: websocket 1 is registered as [s1] only, and
    the message it sends goes to websocket 2 and not back to 1. *)
Lemma no_echo_end_to_end :
  msg_type (mesh_msg "0xBBB" "hi") = Some "mesh_message" /\
  (forall k s, (k, s) ∈ sites (bridge w_nodes) -> websocket s = 1%nat -> k = "s1") /\
  exists new,
    wire (handle_message_ex "s1" (mesh_msg "0xBBB" "hi") 8 w_nodes).2 = wire w_nodes ++ new /\
    ((1%nat, PMsg (mesh_msg "0xBBB" "hi")) ∉ new).
Proof.
  assert (forall k s, (k, s) ∈ sites (bridge w_nodes) -> websocket s = 1%nat -> k = "s1")
    as Horigin.
  { intros k s Hin Hws. vm_compute in Hin.
    apply elem_of_cons in Hin as [Heq|Hin]; [by simplify_eq|].
    apply elem_of_cons in Hin as [Heq|Hin]; [by simplify_eq|].
    by apply elem_of_nil in Hin. }
  split; [reflexivity|]. split; [exact Horigin|].
  destruct (mesh_message_no_echo dumps_ex sorted_ex sha256_ex
              "s1" (mesh_msg "0xBBB" "hi") 8 w_nodes 1%nat eq_refl Horigin)
    as (new & W & Hno & _).
  exists new. split; [exact W | exact Hno].
Defined.

(** The end-to-end scenario of the specification: [s1] sends a message for
    [0xBBB]; only [s2] receives it, as it is; the global counter is 1; the
    same message sent again 20 seconds later is delivered to nobody. *)
Example end_to_end_scenario :
  let m := mesh_msg "0xBBB" "hi" in
  let w1 := (handle_message_ex "s1" m 8 w_nodes).2 in
  let w2 := (handle_message_ex "s1" m 28 w1).2 in
  wire w1 = wire w_nodes ++ [(2%nat, PMsg m)] /\
  total_messages (bridge w1) = 1%nat /\
  wire w2 = wire w1 /\
  total_messages (bridge w2) = 1%nat.
Proof. cbv zeta. split_and!; vm_compute; reflexivity. Qed.

(** ** Connection handler: [handler] *)

(** A broadcast over open connections delivers one frame to every site
    but the excluded one and changes nothing else. *)
Lemma broadcast_loop_all_open unreg p exclude snapshot :
  forall w,
    (forall k s, (k, s) ∈ snapshot -> websocket s ∉ closed w) ->
    broadcast_loop unreg p exclude snapshot w
    = mkWorld (bridge w) (closed w)
        (wire w ++ map (fun e => (websocket e.2, p))
                       (filter (fun e => Some e.1 <> exclude) snapshot)).
Proof.
  induction snapshot as [|[sid site] rest IH]; intros w Hopen; simpl.
  - rewrite app_nil_r. by destruct w.
  - rewrite filter_cons. simpl. destruct (decide (Some sid = exclude)) as [He|He].
    + rewrite decide_False by tauto. apply IH. intros k s Hin. apply (Hopen k). by right.
    + rewrite decide_True by done. unfold send.
      rewrite decide_False by (apply (Hopen sid site); left).
      rewrite IH; simpl; [by rewrite <- app_assoc|].
      intros k s Hin. apply (Hopen k). by right.
Qed.

(** A site whose connection is open is not unregistered by a send that
    fails on another connection. *)
Lemma broadcast_loop_keeps_open unreg p exclude k s :
  (forall k' w, run no_frame w (unreg k' w)) ->
  (forall k' w, NoDup (sites (bridge w)).*1 -> k' <> k ->
     dict_get k (sites (bridge w)) = Some s -> websocket s ∉ closed w ->
     dict_get k (sites (bridge (unreg k' w))) = Some s) ->
  forall snapshot w,
    NoDup (sites (bridge w)).*1 ->
    (forall s', (k, s') ∈ snapshot -> websocket s' ∉ closed w) ->
    dict_get k (sites (bridge w)) = Some s -> websocket s ∉ closed w ->
    dict_get k (sites (bridge (broadcast_loop unreg p exclude snapshot w))) = Some s.
Proof.
  intros Hrun Hunreg snapshot.
  induction snapshot as [|[sid site] rest IH]; intros w Hnd Hopen Hget Hs; simpl; [done|].
  assert (forall s', (k, s') ∈ rest -> websocket s' ∉ closed w) as Hrest
    by (intros s' Hin; apply Hopen; by right).
  destruct (decide (Some sid = exclude)); [by apply IH|].
  unfold send. destruct (decide (websocket site ∈ closed w)) as [Hc|Hc].
  - destruct (Hrun sid w) as (ks & new & _ & B & C & _).
    apply IH.
    + rewrite B. by apply filter_keys_NoDup.
    + by rewrite C.
    + apply Hunreg; [done | | done | done]. intros ->. by apply (Hopen site); [left|].
    + by rewrite C.
  - by apply IH.
Qed.

Lemma unregister_site_n_keeps_open n :
  forall k' w k s,
    NoDup (sites (bridge w)).*1 -> k' <> k ->
    dict_get k (sites (bridge w)) = Some s -> websocket s ∉ closed w ->
    dict_get k (sites (bridge (unregister_site_n n k' w))) = Some s.
Proof.
  induction n as [|n IH]; intros k' w k s Hnd Hne Hget Hopen; simpl;
    destruct (dict_get k' (sites (bridge w))) as [site|] eqn:Hk'; try done.
  - rewrite evict_delete, evict_sites_get. rewrite decide_False; [done|].
    by intros ->%list_elem_of_singleton.
  - assert (dict_get k (dict_del k' (sites (bridge w))) = Some s) as Hget1.
    { rewrite dict_get_del. by rewrite decide_False. }
    assert (NoDup (dict_del k' (sites (bridge w))).*1) as Hnd1.
    { rewrite dict_del_filter_keys. by apply filter_keys_NoDup. }
    apply broadcast_loop_keeps_open; try done.
    + apply unregister_site_n_run.
    + intros k'' w' Hnd' Hne' Hget' Hopen'. by apply IH.
    + simpl. intros s' Hin. apply (dict_get_elem_NoDup _ _ _ Hnd1) in Hin.
      congruence.
Qed.

Lemma broadcast_keeps_open p exclude w k s :
  NoDup (sites (bridge w)).*1 ->
  dict_get k (sites (bridge w)) = Some s -> websocket s ∉ closed w ->
  dict_get k (sites (bridge (broadcast p exclude w))) = Some s.
Proof.
  intros Hnd Hget Hopen. apply broadcast_loop_keeps_open; try done.
  - apply unregister_site_run.
  - intros k' w' Hnd' Hne' Hget' Hopen'. by apply unregister_site_n_keeps_open.
  - intros s' Hin. apply (dict_get_elem_NoDup _ _ _ Hnd) in Hin. congruence.
Qed.

Section Handler.
Variable json_dumps : payload -> string.
Variable json_dumps_sorted : message -> string.
Variable sha256_hexdigest : string -> string.

Local Abbreviation dedup := (deduplicate_message json_dumps_sorted sha256_hexdigest).
Local Abbreviation handle := (handle_message json_dumps json_dumps_sorted sha256_hexdigest).
Local Abbreviation round_of :=
  (handler_round json_dumps json_dumps_sorted sha256_hexdigest).


End Handler.





(** ** Heartbeat monitor: [heartbeat_checker] *)

Lemma delivered_app c q l1 l2 :
  delivered c q (l1 ++ l2) = (delivered c q l1 + delivered c q l2)%nat.
Proof. unfold delivered. by rewrite filter_app, length_app. Qed.

Lemma delivered_singleton c q c' p :
  delivered c q [(c', p)] = Nat.b2n (bool_decide (c' = c /\ p = q)).
Proof.
  unfold delivered. rewrite filter_cons, filter_nil.
  destruct (decide ((c', p) = (c, q))) as [Heq|Hne].
  - injection Heq as -> ->. by rewrite bool_decide_eq_true_2.
  - rewrite bool_decide_eq_false_2; [done|]. intros [-> ->]. done.
Qed.

Lemma left_between_same w w' q :
  sites (bridge w') = sites (bridge w) -> left_between w w' q = false.
Proof.
  intros Hs. unfold left_between. destruct q; try done. rewrite Hs.
  by destruct (dict_get sid (sites (bridge w))).
Qed.

Lemma left_between_sites w1 w1' w2 w2' q :
  sites (bridge w1') = sites (bridge w1) -> sites (bridge w2') = sites (bridge w2) ->
  left_between w1' w2' q = left_between w1 w2 q.
Proof. intros H1 H2. unfold left_between. by rewrite H1, H2. Qed.

(** A site leaves once: between [w] and [w1], or between [w1] and [w2]. *)
Lemma left_between_add fg fg' w w1 w2 q :
  run fg w w1 -> run fg' w1 w2 ->
  Nat.b2n (left_between w w2 q)
  = (Nat.b2n (left_between w w1 q) + Nat.b2n (left_between w1 w2 q))%nat.
Proof.
  intros R1 R2. unfold left_between. destruct q as [|k nm| | | |]; try done.
  destruct (dict_get k (sites (bridge w))) as [s|] eqn:H0.
  - destruct (dict_get k (sites (bridge w1))) as [s1|] eqn:H1.
    + rewrite (run_sites_get _ _ _ _ _ R1 H1) in H0. simplify_eq.
      destruct (dict_get k (sites (bridge w2))); simpl; lia.
    + rewrite (run_sites_none _ _ _ _ R2 H1). simpl. lia.
  - rewrite (run_sites_none _ _ _ _ R1 H0). done.
Qed.

Lemma NoDup_fmap_elem_inj {A B} (f : A -> B) (l : list A) x y :
  NoDup (f <$> l) -> x ∈ l -> y ∈ l -> f x = f y -> x = y.
Proof.
  induction l as [|a l IH]; intros Hnd Hx Hy Hf.
  - by apply elem_of_nil in Hx.
  - rewrite fmap_cons in Hnd. apply NoDup_cons in Hnd as [Ha Hnd].
    apply elem_of_cons in Hx as [->|Hx]; apply elem_of_cons in Hy as [->|Hy]; try done.
    + exfalso. apply Ha. rewrite Hf. by apply list_elem_of_fmap_2.
    + exfalso. apply Ha. rewrite <- Hf. by apply list_elem_of_fmap_2.
    + by apply IH.
Qed.

Lemma sites_same_websocket (U : list (string * Site)) k s k' s' :
  NoDup (websocket <$> U.*2) -> (k, s) ∈ U -> (k', s') ∈ U ->
  websocket s = websocket s' -> k = k' /\ s = s'.
Proof.
  intros Hnd H1 H2 Hws. rewrite <- list_fmap_compose in Hnd.
  assert ((k, s) = (k', s')) as Heq by (by eapply (NoDup_fmap_elem_inj _ U)).
  by simplify_eq.
Qed.

Lemma sites_same_key (U : list (string * Site)) k s s' :
  NoDup U.*1 -> (k, s) ∈ U -> (k, s') ∈ U -> s = s'.
Proof.
  intros Hnd H1 H2.
  apply (dict_get_elem_NoDup _ _ _ Hnd) in H1, H2. congruence.
Qed.

Lemma wire_new_unique (l new new' : list (conn * payload)) :
  l ++ new = l ++ new' -> new = new'.
Proof. apply app_inv_head. Qed.

(** The frames a site that stays registered receives while a broadcast
    loop runs: the [site_left] notice of every site that leaves, once, and
    the frame [p] once when the loop still has to come to it. *)
Lemma broadcast_loop_delivers n p exclude (U : list (string * Site)) :
  (forall sid w R r q new,
     sites_wf w -> (length (sites (bridge w)) <= n)%nat ->
     wire (unregister_site_n n sid w) = wire w ++ new ->
     (R, r) ∈ sites (bridge (unregister_site_n n sid w)) ->
     delivered (websocket r) q new
     = Nat.b2n (left_between w (unregister_site_n n sid w) q)) ->
  NoDup U.*1 -> NoDup (websocket <$> U.*2) ->
  forall todo wi R r q new,
    NoDup todo.*1 -> (forall e, e ∈ todo -> e ∈ U) ->
    (forall e, e ∈ sites (bridge wi) -> e ∈ U) ->
    sites_wf wi -> (length (sites (bridge wi)) <= n)%nat ->
    wire (broadcast_loop (unregister_site_n n) p exclude todo wi) = wire wi ++ new ->
    (R, r) ∈ sites (bridge (broadcast_loop (unregister_site_n n) p exclude todo wi)) ->
    delivered (websocket r) q new
    = (Nat.b2n (left_between wi (broadcast_loop (unregister_site_n n) p exclude todo wi) q)
       + Nat.b2n (bool_decide (q = p /\ Some R <> exclude /\ R ∈ todo.*1)))%nat.
Proof.
  intros IHn HUk HUw todo.
  induction todo as [|[sid site] rest IH]; intros wi R r q new Hnd Htodo Hwi Hwf Hlen HW HR.
  - simpl in *. rewrite <- (app_nil_r (wire wi)) in HW at 1.
    apply wire_new_unique in HW as <-.
    rewrite left_between_same by done.
    rewrite bool_decide_eq_false_2; [done|]. intros (_ & _ & Hin). by apply elem_of_nil in Hin.
  - cbn [broadcast_loop] in *.
    set (w1 := if decide (Some sid = exclude) then wi
               else match send (websocket site) p wi with
                    | (true, w') => w'
                    | (false, w') => unregister_site_n n sid w'
                    end) in *.
    set (w' := broadcast_loop (unregister_site_n n) p exclude rest w1) in *.
    assert (run (broadcast_frame p exclude rest) w1 w') as Hrun2
      by apply broadcast_loop_run, unregister_site_n_run.
    rewrite fmap_cons in Hnd. apply NoDup_cons in Hnd as [Hsid Hnd].
    assert (forall e, e ∈ rest -> e ∈ U) as Hrest by (intros e He; apply Htodo; by right).
    assert ((sid, site) ∈ U) as HsidU by (apply Htodo; left).
    assert ((R, r) ∈ sites (bridge w1)) as HR1 by (by eapply run_sites_elem).
    assert (forall fg, run fg wi w1 ->
              delivered (websocket r) q (drop (length (wire wi)) (wire w1))
              = (Nat.b2n (left_between wi w1 q)
                 + Nat.b2n (bool_decide (q = p /\ Some R <> exclude /\ R = sid)))%nat ->
              delivered (websocket r) q new
              = (Nat.b2n (left_between wi w' q)
                 + Nat.b2n (bool_decide (q = p /\ Some R <> exclude /\ R ∈ sid :: rest.*1)))%nat)
      as Hstep.
    { intros fg Hrun1 Hd1.
      destruct (Hrun1) as (ks1 & new1 & _ & _ & _ & W1 & _).
      destruct (Hrun2) as (ks2 & new2 & _ & _ & _ & W2 & _).
      rewrite W1, drop_app_length in Hd1.
      assert (new = new1 ++ new2) as ->.
      { apply (wire_new_unique (wire wi)). rewrite <- HW, W2, W1. by rewrite app_assoc. }
      rewrite delivered_app, Hd1.
      rewrite (IH w1 R r q new2); try done.
      - rewrite (left_between_add _ _ wi w1 w' q Hrun1 Hrun2).
        assert (Nat.b2n (bool_decide (q = p /\ Some R <> exclude /\ R ∈ sid :: rest.*1))
                = (Nat.b2n (bool_decide (q = p /\ Some R <> exclude /\ R = sid))
                   + Nat.b2n (bool_decide (q = p /\ Some R <> exclude /\ R ∈ rest.*1)))%nat)
          as ->; [|subst w'; lia].
        destruct (decide (q = p /\ Some R <> exclude)) as [[Hq He]|Hn].
        + destruct (decide (R = sid)) as [->|Hne].
          * rewrite (bool_decide_eq_true_2 (_ /\ _ /\ _ ∈ _ :: _)) by (split_and!; [done..|left]).
            rewrite (bool_decide_eq_true_2 (_ /\ _ /\ _ = _)) by done.
            rewrite bool_decide_eq_false_2; [done|]. tauto.
          * rewrite (bool_decide_eq_false_2 (_ /\ _ /\ _ = _)) by tauto. simpl.
            apply f_equal, bool_decide_ext. rewrite elem_of_cons. tauto.
        + rewrite !bool_decide_eq_false_2 by tauto. done.
      - intros e He. apply Hwi. by eapply run_sites_elem.
      - by eapply run_wf.
      - pose proof (run_sites_length _ _ _ Hrun1). lia. }
    subst w1. destruct (decide (Some sid = exclude)) as [He|He].
    + apply (Hstep no_frame); [apply run_refl|].
      rewrite drop_all. unfold delivered. rewrite filter_nil. simpl.
      rewrite left_between_same by done.
      rewrite bool_decide_eq_false_2; [done|]. intros (_ & Hne & ->). done.
    + unfold send in *. destruct (decide (websocket site ∈ closed wi)) as [Hc|Hc].
      * pose proof (unregister_site_n_run n sid wi) as Hrun1.
        apply (Hstep no_frame); [done|].
        destruct (Hrun1) as (ks1 & new1 & _ & _ & _ & W1 & _).
        rewrite W1, drop_app_length.
        rewrite (IHn sid wi R r q new1); try done.
        rewrite bool_decide_eq_false_2; [simpl; lia|]. intros (_ & _ & ->).
        apply dict_get_elem_NoDup in HR1; [|by apply (run_wf _ _ _ Hrun1)].
        by rewrite unregister_site_n_gone in HR1.
      * apply (Hstep (broadcast_frame p exclude ((sid, site) :: rest))).
        -- pose proof (run_send (broadcast_frame p exclude ((sid, site) :: rest))
                         (websocket site) p wi) as Hs.
           unfold send in Hs. rewrite decide_False in Hs by done. apply Hs.
           split; [done|]. exists sid, site. split_and!; [left | done | done].
        -- simpl. rewrite drop_app_length, delivered_singleton.
           rewrite left_between_same by done. simpl.
           apply f_equal, bool_decide_ext. split.
           ++ intros [Hws ->]. split_and!; [done | |].
              ** destruct (sites_same_websocket U sid site R r HUw HsidU (Hwi _ HR1) Hws)
                   as [-> _]. done.
              ** by destruct (sites_same_websocket U sid site R r HUw HsidU (Hwi _ HR1) Hws).
           ++ intros (-> & _ & ->). split; [|done].
              by rewrite (sites_same_key U sid site r HUk HsidU (Hwi _ HR1)).
Qed.

(** The frames a site that stays registered receives while
    [unregister_site] runs: the [site_left] notice of every site that
    leaves, once, and nothing else. *)
Lemma unregister_site_n_delivers n :
  forall sid w R r q new,
    sites_wf w -> (length (sites (bridge w)) <= n)%nat ->
    wire (unregister_site_n n sid w) = wire w ++ new ->
    (R, r) ∈ sites (bridge (unregister_site_n n sid w)) ->
    delivered (websocket r) q new
    = Nat.b2n (left_between w (unregister_site_n n sid w) q).
Proof.
  induction n as [|n IH]; intros sid w R r q new Hwf Hlen HW HR.
  - destruct (sites (bridge w)) eqn:Hs; [|simpl in Hlen; lia].
    simpl in *. rewrite Hs in *. simpl in *. rewrite Hs in HR. by apply elem_of_nil in HR.
  - cbn [unregister_site_n] in *.
    destruct (dict_get sid (sites (bridge w))) as [site|] eqn:Hget.
    + cbv zeta in *. set (w1 := set_sites (dict_del sid) (set_routing_table (purge_routes sid) w)) in *.
      set (p := PSiteLeft sid (name site)) in *.
      assert (run no_frame w w1) as Hrun1.
      { exists [sid], []. split_and!; [by repeat constructor | apply evict_delete | done
                                       | by rewrite app_nil_r |].
        intros c q' Hin. by apply elem_of_nil in Hin. }
      assert (sites_wf w1) as Hwf1 by (by eapply run_wf).
      assert (length (sites (bridge w1)) <= n)%nat as Hlen1.
      { pose proof (dict_del_length_lt _ _ _ Hget). simpl. lia. }
      pose proof (broadcast_loop_run (unregister_site_n n) p (Some sid)
                    (unregister_site_n_run n) (sites (bridge w1)) w1) as Hrun2.
      rewrite (broadcast_loop_delivers n p (Some sid) (sites (bridge w1)) IH
                 (proj1 Hwf1) (proj2 Hwf1) (sites (bridge w1)) w1 R r q new
                 (proj1 Hwf1) ltac:(done) ltac:(done) Hwf1 Hlen1 HW HR).
      assert ((R, r) ∈ sites (bridge w1)) as HR1 by (by eapply run_sites_elem).
      assert (R <> sid) as Hne.
      { intros ->. apply (dict_get_elem_NoDup _ _ _ (proj1 Hwf1)) in HR1.
        simpl in HR1. rewrite dict_get_del in HR1. by rewrite decide_True in HR1. }
      rewrite (left_between_add _ _ w w1 _ q Hrun1 Hrun2), Nat.add_comm.
      apply f_equal2; [|done].
      unfold left_between. destruct q as [|k nm| | | |];
        try (rewrite bool_decide_eq_false_2; [done | by intros [? _]]).
      simpl. rewrite dict_get_del.
      destruct (decide (k = sid)) as [->|Hk].
      * rewrite Hget. destruct (decide (nm = name site)) as [->|Hnm].
        -- rewrite !bool_decide_eq_true_2; [done.. |]. split_and!; [done | congruence |].
           apply list_elem_of_fmap. by exists (R, r).
        -- rewrite (bool_decide_eq_false_2 (nm = name site)) by done.
           rewrite bool_decide_eq_false_2; [done|]. subst p. intros [? _]. congruence.
      * rewrite (bool_decide_eq_false_2 (_ /\ _)); [|subst p; intros [? _]; congruence].
        by destruct (dict_get k (sites (bridge w))).
    + rewrite <- (app_nil_r (wire w)) in HW at 1. apply wire_new_unique in HW as <-.
      by rewrite left_between_same.
Qed.

Lemma unregister_site_delivers sid w R r q new :
  sites_wf w ->
  wire (unregister_site sid w) = wire w ++ new ->
  (R, r) ∈ sites (bridge (unregister_site sid w)) ->
  delivered (websocket r) q new = Nat.b2n (left_between w (unregister_site sid w) q).
Proof. intros Hwf HW HR. by apply (unregister_site_n_delivers _ sid w R). Qed.

Lemma heartbeat_loop_run now snapshot :
  forall w, run no_frame w (heartbeat_loop now snapshot w).
Proof.
  induction snapshot as [|[sid site] rest IH]; intros w; simpl; [apply run_refl|].
  eapply run_trans; [|apply IH].
  case_decide; [apply unregister_site_run | apply run_refl].
Qed.

Lemma heartbeat_loop_evicts now snapshot k s :
  forall w,
    (k, s) ∈ snapshot -> now - last_heartbeat s > heartbeat_timeout ->
    dict_get k (sites (bridge (heartbeat_loop now snapshot w))) = None.
Proof.
  induction snapshot as [|[sid site] rest IH]; intros w Hin Hstale; simpl.
  - by apply elem_of_nil in Hin.
  - apply elem_of_cons in Hin as [Heq|Hin]; [|by apply IH].
    simplify_eq. rewrite decide_True by done.
    eapply run_sites_none; [apply heartbeat_loop_run|]. apply unregister_site_n_gone.
Qed.

Lemma heartbeat_loop_delivers now snapshot :
  forall w R r q new,
    sites_wf w ->
    wire (heartbeat_loop now snapshot w) = wire w ++ new ->
    (R, r) ∈ sites (bridge (heartbeat_loop now snapshot w)) ->
    delivered (websocket r) q new
    = Nat.b2n (left_between w (heartbeat_loop now snapshot w) q).
Proof.
  induction snapshot as [|[sid site] rest IH]; intros w R r q new Hwf HW HR.
  - simpl in *. rewrite <- (app_nil_r (wire w)) in HW at 1. apply wire_new_unique in HW as <-.
    by rewrite left_between_same.
  - cbn [heartbeat_loop] in *.
    set (w1 := if decide (now - last_heartbeat site > heartbeat_timeout)
               then unregister_site sid w else w) in *.
    assert (run no_frame w w1) as Hrun1
      by (subst w1; case_decide; [apply unregister_site_run | apply run_refl]).
    pose proof (heartbeat_loop_run now rest w1) as Hrun2.
    destruct (Hrun1) as (ks1 & new1 & _ & _ & _ & W1 & _).
    destruct (Hrun2) as (ks2 & new2 & _ & _ & _ & W2 & _).
    assert (new = new1 ++ new2) as ->.
    { apply (wire_new_unique (wire w)). rewrite <- HW, W2, W1. by rewrite app_assoc. }
    assert ((R, r) ∈ sites (bridge w1)) as HR1 by (by eapply run_sites_elem).
    rewrite delivered_app, (left_between_add _ _ w w1 _ q Hrun1 Hrun2).
    apply f_equal2.
    + subst w1. destruct (decide (now - last_heartbeat site > heartbeat_timeout)).
      * by apply (unregister_site_delivers sid w R).
      * rewrite <- (app_nil_r (wire w)) in W1 at 1. apply wire_new_unique in W1 as <-.
        by rewrite left_between_same.
    + apply (IH w1 R); [by eapply run_wf | done | done].
Qed.



(** ** The registry in the reachable states *)

Lemma elem_of_dict_set {V} k (v : V) d k' x :
  (k', x) ∈ dict_set k v d -> (k' = k /\ x = v) \/ (k', x) ∈ d.
Proof.
  induction d as [|[k0 v0] d IH]; simpl.
  - intros Hin%list_elem_of_singleton. simplify_eq. by left.
  - case_decide; intros [Heq|Hin]%elem_of_cons; simplify_eq.
    + by left.
    + right. by right.
    + right. left.
    + destruct (IH Hin) as [|]; [by left | right; by right].
Qed.

Lemma owned_filter (P : string * Site -> Prop) `{!forall e, Decision (P e)} ss hs :
  owned ss hs -> owned (filter P ss) hs.
Proof.
  intros (Hnd & Hown & Hne). split_and!; [| |done].
  - eapply sublist_NoDup; [exact Hnd|]. apply fmap_sublist, sublist_filter.
  - intros k s [_ Hin]%list_elem_of_filter. by apply Hown.
Qed.

Lemma owned_run fg w w' hs :
  run fg w w' -> owned (sites (bridge w)) hs -> owned (sites (bridge w')) hs.
Proof. intros (ks & new & _ & -> & _). apply owned_filter. Qed.

Lemma owned_set_same ss hs k s s' :
  owned ss hs -> dict_get k ss = Some s -> websocket s' = websocket s ->
  owned (dict_set k s' ss) hs.
Proof.
  intros (Hnd & Hown & Hne) Hget Hws. split_and!; [by apply dict_set_NoDup | | done].
  intros k' x [[-> ->]|Hin]%elem_of_dict_set; [|by apply Hown].
  rewrite Hws. by apply Hown, dict_get_Some_elem.
Qed.

Lemma owned_set_new ss hs c sid site :
  owned ss hs -> hs !! c = Some Waiting -> sid <> "" -> websocket site = c ->
  owned (dict_set sid site ss) (<[c := Identified sid]> hs).
Proof.
  intros (Hnd & Hown & Hne) Hc Hsid Hws. split_and!; [by apply dict_set_NoDup | |].
  - intros k' x [[-> ->]|Hin]%elem_of_dict_set.
    + by rewrite Hws, lookup_insert_eq.
    + rewrite lookup_insert_ne; [by apply Hown|]. intros Heq. apply Hown in Hin. congruence.
  - intros c'. destruct (decide (c = c')) as [<-|Hcc].
    + rewrite lookup_insert_eq. congruence.
    + by rewrite lookup_insert_ne.
Qed.

(** The handler of [c] ends: it owns no record. *)
Lemma owned_end ss hs c :
  owned ss hs ->
  match hs !! c with
  | Some (Identified sid) => dict_get sid ss = None
  | _ => True
  end ->
  owned ss (<[c := Ended]> hs).
Proof.
  intros (Hnd & Hown & Hne) Hc. split_and!; [done | |].
  - intros k s Hin. pose proof (Hown k s Hin) as Hs.
    rewrite lookup_insert_ne; [done|]. intros Heq. rewrite Heq, Hs in Hc.
    apply dict_get_None in Hc. apply Hc, list_elem_of_fmap. by exists (k, s).
  - intros c'. destruct (decide (c = c')) as [<-|Hcc].
    + by rewrite lookup_insert_eq.
    + by rewrite lookup_insert_ne.
Qed.

Lemma owned_same_state ss hs c st :
  owned ss hs -> hs !! c = Some st -> owned ss (<[c := st]> hs).
Proof. intros Ho Hc. by rewrite insert_id. Qed.

Lemma owned_accept ss hs c :
  owned ss hs -> hs !! c = None -> owned ss (<[c := Waiting]> hs).
Proof.
  intros (Hnd & Hown & Hne) Hc. split_and!; [done | |].
  - intros k s Hin. rewrite lookup_insert_ne; [by apply Hown|].
    intros Heq. apply Hown in Hin. congruence.
  - intros c'. destruct (decide (c = c')) as [<-|Hcc].
    + by rewrite lookup_insert_eq.
    + by rewrite lookup_insert_ne.
Qed.

Section SystemFacts.
Variable json_dumps : payload -> string.
Variable json_dumps_sorted : message -> string.
Variable sha256_hexdigest : string -> string.

Local Abbreviation relay := (relay_to_site json_dumps).
Local Abbreviation dedup := (deduplicate_message json_dumps_sorted sha256_hexdigest).
Local Abbreviation handle := (handle_message json_dumps json_dumps_sorted sha256_hexdigest).
Local Abbreviation round_of := (handler_round json_dumps json_dumps_sorted sha256_hexdigest).

Lemma owned_relay target p w hs :
  owned (sites (bridge w)) hs -> owned (sites (bridge (relay target p w).2)) hs.
Proof.
  intros Ho. rewrite relay_to_site_eq.
  destruct (dict_get target (sites (bridge w))) as [site|] eqn:Ht; [|done].
  case_decide; simpl.
  - by eapply owned_run; [apply unregister_site_run|].
  - by eapply owned_set_same.
Qed.

Lemma owned_handle sid m now w hs :
  owned (sites (bridge w)) hs -> owned (sites (bridge (handle sid m now w).2)) hs.
Proof.
  intros Ho.
  pose proof (dedup_bridge json_dumps_sorted sha256_hexdigest m now w) as (Hds & _).
  destruct (decide (default "" (msg_type m) = "heartbeat")) as [Ht|Hhb].
  { rewrite handle_heartbeat by done. cbn [snd].
    destruct (dict_get sid (sites (bridge w))) as [s|] eqn:Hs; [|done].
    simpl. by eapply owned_set_same. }
  destruct (decide (default "" (msg_type m) = "nodes_update")) as [Ht|Hnu].
  { rewrite handle_nodes_update by done. cbv zeta. cbn [snd]. unfold update_routing. simpl.
    destruct (dict_get sid (sites (bridge w))) as [s|] eqn:Hs; [|done].
    simpl. by eapply owned_set_same. }
  destruct (decide (default "" (msg_type m) = "mesh_message")) as [Ht|Hmm].
  { rewrite handle_mesh_message by done. cbn [snd].
    destruct (dedup m now w) as [[] w1]; cbn [fst snd] in *; [|by rewrite Hds].
    cbv zeta. destruct (unicast_target sid m _).
    - apply owned_relay. simpl. by rewrite Hds.
    - eapply owned_run; [apply broadcast_run|]. simpl. by rewrite Hds. }
  destruct (decide (default "" (msg_type m) = "query_sites")) as [Ht|Hqs].
  { rewrite handle_query_sites by done. cbn [snd]. by apply owned_relay. }
  rewrite handle_unknown by done. cbn [snd].
  destruct (dedup m now w) as [[] w1]; cbn [fst snd] in *; [|by rewrite Hds].
  eapply owned_run; [apply broadcast_run|]. by rewrite Hds.
Qed.

Lemma owned_finally st w hs c :
  owned (sites (bridge w)) hs -> hs !! c = Some st ->
  owned (sites (bridge (handler_finally (local_site_id st) w))) (<[c := Ended]> hs).
Proof.
  intros Ho Hc. destruct st as [|sid|]; simpl.
  - apply owned_end; [done | by rewrite Hc].
  - destruct (decide (sid = "")) as [->|Hne].
    + destruct Ho as (_ & _ & Hno). by destruct (Hno c).
    + apply owned_end.
      * by eapply owned_run; [apply unregister_site_run|].
      * rewrite Hc. apply unregister_site_n_gone.
  - apply owned_end; [done | by rewrite Hc].
Qed.

Lemma owned_round c st fr now w hs :
  owned (sites (bridge w)) hs -> hs !! c = Some st -> st <> Ended ->
  owned (sites (bridge (round_of c (local_site_id st) fr now w).2))
        (<[c := after_round (round_of c (local_site_id st) fr now w).1]> hs).
Proof.
  intros Ho Hc Hst. unfold handler_round.
  destruct (json_loads fr) as [[m|]|]; cbn [fst snd]; [| |]; last first.
  { destruct st; [by apply owned_same_state.. | done]. }
  { cbn [after_round]. by apply owned_finally. }
  destruct st as [|sid|]; [| |done]; cbn [local_site_id].
  - (* the connection has not registered *)
    destruct (decide (msg_type m = Some "register")) as [Ht|Ht].
    + destruct (msg_site_id m) as [sid|]; last first.
      { simpl. unfold send. case_decide; simpl; apply owned_end; try done; by rewrite Hc. }
      destruct (decide (sid = "")) as [->|Hne].
      { simpl. unfold send. case_decide; simpl; apply owned_end; try done; by rewrite Hc. }
      assert (owned (sites (bridge (register_site c sid (default "" (msg_name m)) now w)))
                    (<[c := Identified sid]> hs)) as Ho1.
      { unfold register_site, broadcast_site_update.
        eapply owned_run; [apply broadcast_run|]. simpl. by apply owned_set_new. }
      assert (forall w1, owned (sites (bridge w1)) (<[c := Identified sid]> hs) ->
                owned (sites (bridge (handler_finally (Some sid) w1))) (<[c := Ended]> hs))
        as Hend.
      { intros w1 Hw1.
        pose proof (owned_finally (Identified sid) w1 (<[c := Identified sid]> hs) c Hw1
                      (lookup_insert_eq _ _ _)) as H.
        by rewrite insert_insert_eq in H. }
      unfold send. case_decide; cbn [fst snd after_round]; [by apply Hend|].
      case_decide; cbn [fst snd after_round]; [by apply Hend | done].
    + unfold send. case_decide; cbn [fst snd after_round handler_finally].
      * apply owned_end; [done | by rewrite Hc].
      * by apply owned_same_state.
  - (* the connection has registered as [sid] *)
    pose proof (owned_handle sid m now w hs Ho) as Hh.
    destruct (handle sid m now w) as [[e|] w1]; cbn [fst snd after_round] in *.
    + by apply (owned_finally (Identified sid)).
    + by apply owned_same_state.
Qed.

Lemma step_records_owned sys sys' :
  step json_dumps json_dumps_sorted sha256_hexdigest sys sys' ->
  records_owned sys -> records_owned sys'.
Proof.
  unfold records_owned. intros Hstep Ho. destruct Hstep; simpl in *.
  - by apply owned_accept.
  - by apply owned_round.
  - by apply (owned_finally st (close_conn c w)).
  - done.
  - eapply owned_run; [apply heartbeat_loop_run | done].
Qed.

(** In every reachable state the registry is a dictionary whose records
    belong to the running handlers that registered them. *)
Lemma reachable_records_owned t0 sys :
  reachable json_dumps json_dumps_sorted sha256_hexdigest t0 sys -> records_owned sys.
Proof.
  unfold reachable. intros Hr.
  eapply (rtc_ind_r (fun s => records_owned s)); [| |exact Hr].
  - split_and!; [constructor | | ].
    + intros k s Hin. by apply elem_of_nil in Hin.
    + intros c. simpl. by rewrite lookup_empty.
  - intros y z _ Hstep IH. by eapply step_records_owned.
Qed.
End SystemFacts.

Lemma owned_sites_wf w hs : owned (sites (bridge w)) hs -> sites_wf w.
Proof.
  intros (Hnd & Hown & _). split; [done|].
  rewrite <- list_fmap_compose. apply NoDup_fmap_2_strong; [|by eapply NoDup_fmap_1].
  intros [k s] [k' s'] Hin Hin' Hws. simpl in Hws.
  pose proof (Hown k s Hin) as H1. pose proof (Hown k' s' Hin') as H2.
  rewrite Hws in H1. simplify_eq.
  by rewrite (sites_same_key _ _ _ _ Hnd Hin Hin').
Qed.

(** The hypotheses of the theorems on forwarding and on the heartbeat
    monitor hold in every reachable state: the registry is well formed,
    and the websocket of a handler that identified itself as [sid] is
    registered under no other id. *)
Lemma reachable_well_formed json_dumps json_dumps_sorted sha256_hexdigest t0 sys :
  reachable json_dumps json_dumps_sorted sha256_hexdigest t0 sys ->
  sites_wf (sys_world sys) /\
  forall c sid, handlers sys !! c = Some (Identified sid) ->
    forall k s, (k, s) ∈ sites (bridge (sys_world sys)) -> websocket s = c -> k = sid.
Proof.
  intros Hr%reachable_records_owned. split; [by eapply owned_sites_wf|].
  intros c sid Hc k s Hin <-. destruct Hr as (_ & Hown & _).
  rewrite (Hown k s Hin) in Hc. by simplify_eq.
Qed.

(** The state in which [s1] was evicted while its handler runs on is
    reachable: the connection is accepted, registers, and the monitor
    passes at time 100. *)
Example eviction_is_reachable :
  reachable dumps_ex sorted_ex sha256_ex 0
    (mkSystem w_s1_evicted {[1%nat := Identified "s1"]}).
Proof.
  unfold reachable.
  eapply rtc_l; [apply (step_accept _ _ _ 1%nat); apply lookup_empty|].
  eapply rtc_l.
  { apply (step_frame dumps_ex sorted_ex sha256_ex 1%nat Waiting (register_frame "s1") 0);
      [apply lookup_insert_eq | done]. }
  eapply rtc_l; [apply (step_heartbeat _ _ _ 100)|].
  match goal with |- rtc _ ?a ?b => replace a with b; [apply rtc_refl | by vm_compute] end.
Qed.

(** There the next [nodes_update] of [s1] ends its handler with
    [KeyError], and the route it wrote stays. *)
Example nodes_update_ends_evicted_handler :
  let r := handler_round_ex 1 (Some "s1") (nodes_frame ["0xAAA"]) 101 w_s1_evicted in
  r.1 = Raise KeyError /\
  dict_get "s1" (sites (bridge r.2)) = None /\
  find_route "0xAAA" r.2 = Some "s1".
Proof. cbv zeta. split_and!; vm_compute; reflexivity. Qed.

(** The same after a send failure: websocket 2 is dead, a broadcast of
    [s1] fails on it and unregisters [s2]; the [nodes_update] of [s2] that
    is handled next raises [KeyError]. *)
Example nodes_update_after_send_failure :
  let w1 := (handle_message_ex "s1" (mesh_msg "0xCCC" "yo") 9 (close_conn 2 w_nodes)).2 in
  let r := handle_message_ex "s2" (nodes_msg ["0xBBB"; "0xDDD"]) 10 w1 in
  dict_get "s2" (sites (bridge w1)) = None /\
  find_route "0xBBB" w1 = None /\
  r.1 = Some KeyError /\
  find_route "0xDDD" r.2 = Some "s2".
Proof. cbv zeta. split_and!; vm_compute; reflexivity. Qed.

(** * Further properties of the bridge *)

(** ** [broadcast] and [unregister_site] *)

Lemma filter_keep_all {A} (P : A -> Prop) `{!forall x, Decision (P x)} (l : list A) :
  (forall x, x ∈ l -> P x) -> filter P l = l.
Proof.
  induction l as [|a l IH]; intros Hall; [done|].
  rewrite filter_cons_True by (apply Hall; left). rewrite IH; [done|].
  intros x Hx. apply Hall. by right.
Qed.

Lemma run_fixed fg w w' :
  run fg w w' ->
  seen_messages (bridge w') = seen_messages (bridge w) /\
  total_messages (bridge w') = total_messages (bridge w) /\
  total_bytes (bridge w') = total_bytes (bridge w) /\
  start_time (bridge w') = start_time (bridge w) /\
  closed w' = closed w.
Proof. intros (ks & new & _ & B & C & _). by rewrite B, C. Qed.

Lemma broadcast_reaches_every_open_site_aux p exclude w :
  (forall k s, (k, s) ∈ sites (bridge w) -> websocket s ∉ closed w) ->
  broadcast p exclude w
  = mkWorld (bridge w) (closed w)
      (wire w ++ map (fun e => (websocket e.2, p))
                     (filter (fun e => Some e.1 <> exclude) (sites (bridge w)))).
Proof. intros Hopen. unfold broadcast. by apply broadcast_loop_all_open. Qed.

(** X1: with every registered connection open, [broadcast] delivers the
    frame once to each registered site but the excluded one, in the order
    of the registry, and changes nothing else. *)
Theorem broadcast_reaches_every_open_site p exclude w :
  (forall k s, (k, s) ∈ sites (bridge w) -> websocket s ∉ closed w) ->
  broadcast p exclude w
  = mkWorld (bridge w) (closed w)
      (wire w ++ map (fun e => (websocket e.2, p))
                     (filter (fun e => Some e.1 <> exclude) (sites (bridge w)))).
Proof. intros Hopen. unfold broadcast. by apply broadcast_loop_all_open. Qed.

Lemma broadcast_reaches_every_open_site_witness :
  (forall k s, (k, s) ∈ sites (bridge w_three) -> websocket s ∉ closed w_three) /\
  wire (broadcast (PError "notice") (Some "s2") w_three)
  = wire w_three ++ [(1%nat, PError "notice"); (3%nat, PError "notice")].
Proof.
  assert (forall k s, (k, s) ∈ sites (bridge w_three) -> websocket s ∉ closed w_three)
    as Hopen by (intros k s _; vm_compute; apply not_elem_of_nil).
  split; [exact Hopen|].
  rewrite (broadcast_reaches_every_open_site (PError "notice") (Some "s2") w_three Hopen).
  vm_compute. reflexivity.
Defined.

(** X2: whatever the connections, [broadcast] removes from the registry
    only sites whose connection is closed: a site with an open connection
    keeps its record, no record is added or changed, and the seen
    messages, the counters, the start time and the connections are left
    alone. *)
Theorem broadcast_removes_only_dead_sites p exclude w :
  NoDup (sites (bridge w)).*1 ->
  let w' := broadcast p exclude w in
  (forall k s, dict_get k (sites (bridge w)) = Some s -> websocket s ∉ closed w ->
     dict_get k (sites (bridge w')) = Some s) /\
  (forall k s, dict_get k (sites (bridge w')) = Some s ->
     dict_get k (sites (bridge w)) = Some s) /\
  seen_messages (bridge w') = seen_messages (bridge w) /\
  total_messages (bridge w') = total_messages (bridge w) /\
  total_bytes (bridge w') = total_bytes (bridge w) /\
  start_time (bridge w') = start_time (bridge w) /\
  closed w' = closed w.
Proof.
  intros Hnd. cbv zeta. pose proof (broadcast_run p exclude w) as Hrun.
  split; [intros k s Hs Ho; by apply broadcast_keeps_open|].
  split; [intros k s; apply (run_sites_get _ _ _ _ _ Hrun)|].
  apply (run_fixed _ _ _ Hrun).
Qed.

Lemma broadcast_removes_only_dead_sites_witness :
  let w := close_conn 2 w_three in
  NoDup (sites (bridge w)).*1 /\
  (dict_get "s2" (sites (bridge (broadcast (PError "notice") None w))) = None) /\
  (exists s, dict_get "s3" (sites (bridge w)) = Some s /\
             dict_get "s3" (sites (bridge (broadcast (PError "notice") None w))) = Some s).
Proof.
  cbv zeta.
  assert (NoDup (sites (bridge (close_conn 2 w_three))).*1) as Hnd
    by (apply (bool_decide_unpack _); vm_compute; exact I).
  destruct (broadcast_removes_only_dead_sites (PError "notice") None
              (close_conn 2 w_three) Hnd) as (Hkeep & _).
  split; [exact Hnd|]. split; [vm_compute; reflexivity|].
  eexists. split; [vm_compute; reflexivity|].
  apply Hkeep; [vm_compute; reflexivity|].
  vm_compute. intros Hin. apply elem_of_cons in Hin as [Hin|Hin]; [discriminate|].
  by apply elem_of_nil in Hin.
Defined.



(** ** The connection handler before and at registration *)

Lemma elem_of_dict_set_NoDup {V} k (v : V) d k' x :
  NoDup d.*1 -> (k', x) ∈ dict_set k v d ->
  (k' = k /\ x = v) \/ (k' <> k /\ (k', x) ∈ d).
Proof.
  intros Hnd Hin.
  apply (dict_get_elem_NoDup _ _ _ (dict_set_NoDup k v d Hnd)) in Hin.
  rewrite dict_get_set in Hin. case_decide; simplify_eq; [by left|].
  right. split; [done | by apply dict_get_Some_elem].
Qed.

Section HandlerFacts.
Variable json_dumps : payload -> string.
Variable json_dumps_sorted : message -> string.
Variable sha256_hexdigest : string -> string.



End HandlerFacts.



(** ** Counters and statistics *)

Lemma send_bridge c p w : bridge (send c p w).2 = bridge w /\ closed (send c p w).2 = closed w.
Proof. unfold send. by case_decide. Qed.

Section CounterFacts.
Variable json_dumps : payload -> string.
Variable json_dumps_sorted : message -> string.
Variable sha256_hexdigest : string -> string.

Local Abbreviation relay := (relay_to_site json_dumps).
Local Abbreviation dedup := (deduplicate_message json_dumps_sorted sha256_hexdigest).
Local Abbreviation handle := (handle_message json_dumps json_dumps_sorted sha256_hexdigest).
Local Abbreviation round_of := (handler_round json_dumps json_dumps_sorted sha256_hexdigest).

Lemma dedup_only_seen m now w :
  exists seen',
    (dedup m now w).2
    = mkWorld (mkBridge (sites (bridge w)) seen' (routing_table (bridge w))
                        (total_messages (bridge w)) (total_bytes (bridge w))
                        (start_time (bridge w)))
              (closed w) (wire w).
Proof.
  unfold deduplicate_message. destruct (seen_messages _ !! _); eexists; reflexivity.
Qed.

Lemma relay_to_site_fixed target p w :
  seen_messages (bridge (relay target p w).2) = seen_messages (bridge w) /\
  total_messages (bridge (relay target p w).2) = total_messages (bridge w) /\
  total_bytes (bridge (relay target p w).2) = total_bytes (bridge w) /\
  start_time (bridge (relay target p w).2) = start_time (bridge w) /\
  closed (relay target p w).2 = closed w.
Proof.
  rewrite relay_to_site_eq.
  destruct (dict_get target (sites (bridge w))); [|done].
  case_decide; [|done]. apply (run_fixed _ _ _ (unregister_site_run target w)).
Qed.

(** [handle_message] leaves the byte counter, the start time and the
    connections alone, and adds at most one to the message counter. *)
Lemma handle_message_counters sid m now w :
  total_bytes (bridge (handle sid m now w).2) = total_bytes (bridge w) /\
  start_time (bridge (handle sid m now w).2) = start_time (bridge w) /\
  closed (handle sid m now w).2 = closed w /\
  (total_messages (bridge (handle sid m now w).2) = total_messages (bridge w) \/
   total_messages (bridge (handle sid m now w).2) = S (total_messages (bridge w))).
Proof.
  destruct (dedup_only_seen m now w) as (seen' & Hd).
  destruct (decide (default "" (msg_type m) = "heartbeat")) as [Ht|Hhb].
  { rewrite handle_heartbeat by done. cbn [snd].
    destruct (dict_get sid (sites (bridge w))); simpl; auto. }
  destruct (decide (default "" (msg_type m) = "nodes_update")) as [Ht|Hnu].
  { rewrite handle_nodes_update by done. cbv zeta. cbn [snd]. unfold update_routing. simpl.
    destruct (dict_get sid (sites (bridge w))); simpl; auto. }
  destruct (decide (default "" (msg_type m) = "mesh_message")) as [Ht|Hmm].
  { rewrite handle_mesh_message by done. cbn [snd].
    destruct (dedup m now w) as [[] w1]; cbn [snd] in Hd; subst w1; [|simpl; auto].
    cbv zeta. destruct (unicast_target sid m _).
    - destruct (relay_to_site_fixed s (PMsg m)
                  (set_total_messages S
                     (mkWorld (mkBridge (sites (bridge w)) seen' (routing_table (bridge w))
                                 (total_messages (bridge w)) (total_bytes (bridge w))
                                 (start_time (bridge w))) (closed w) (wire w))))
        as (_ & -> & -> & -> & ->). simpl. auto.
    - destruct (run_fixed _ _ _
                  (broadcast_run (PMsg m) (Some sid)
                     (set_total_messages S
                        (mkWorld (mkBridge (sites (bridge w)) seen' (routing_table (bridge w))
                                    (total_messages (bridge w)) (total_bytes (bridge w))
                                    (start_time (bridge w))) (closed w) (wire w)))))
        as (_ & -> & -> & -> & ->). simpl. auto. }
  destruct (decide (default "" (msg_type m) = "query_sites")) as [Ht|Hqs].
  { rewrite handle_query_sites by done. cbn [snd].
    destruct (relay_to_site_fixed sid
                (PSitesList (map (fun e : string * Site =>
                                    SiteInfo (prefix 16 e.1) (name e.2) (size (nodes e.2)) None)
                                 (sites (bridge w)))) w) as (_ & -> & -> & -> & ->). auto. }
  rewrite handle_unknown by done. cbn [snd].
  destruct (dedup m now w) as [[] w1]; cbn [snd] in Hd; subst w1; [|simpl; auto].
  destruct (run_fixed _ _ _
              (broadcast_run (PMsg m) (Some sid)
                 (mkWorld (mkBridge (sites (bridge w)) seen' (routing_table (bridge w))
                             (total_messages (bridge w)) (total_bytes (bridge w))
                             (start_time (bridge w))) (closed w) (wire w))))
    as (_ & -> & -> & -> & ->). simpl. auto.
Qed.

Lemma handler_finally_fixed l w :
  total_messages (bridge (handler_finally l w)) = total_messages (bridge w) /\
  total_bytes (bridge (handler_finally l w)) = total_bytes (bridge w) /\
  start_time (bridge (handler_finally l w)) = start_time (bridge w).
Proof.
  destruct l as [sid|]; simpl; [|done]. case_decide; [done|].
  destruct (run_fixed _ _ _ (unregister_site_run sid w)) as (_ & -> & -> & -> & _). done.
Qed.

Lemma register_site_fixed ws sid nm now w :
  total_messages (bridge (register_site ws sid nm now w)) = total_messages (bridge w) /\
  total_bytes (bridge (register_site ws sid nm now w)) = total_bytes (bridge w) /\
  start_time (bridge (register_site ws sid nm now w)) = start_time (bridge w).
Proof.
  unfold register_site, broadcast_site_update.
  match goal with |- context [broadcast ?p ?e ?w0] =>
    destruct (run_fixed _ _ _ (broadcast_run p e w0)) as (_ & -> & -> & -> & _) end.
  done.
Qed.

(** What a round of the handler does to the counters: the frame is
    counted in [total_bytes] when it was parsed and handled without an
    exception on a registered connection, and not otherwise. *)
Lemma handler_round_counters ws l fr now w :
  total_bytes (bridge (round_of ws l fr now w).2)
  = (total_bytes (bridge w)
     + match l, parsed fr, (round_of ws l fr now w).1 with
       | Some _, Some _, Continue _ => raw_len fr
       | _, _, _ => 0
       end)%nat /\
  start_time (bridge (round_of ws l fr now w).2) = start_time (bridge w) /\
  (total_messages (bridge (round_of ws l fr now w).2) = total_messages (bridge w) \/
   total_messages (bridge (round_of ws l fr now w).2) = S (total_messages (bridge w))).
Proof.
  unfold handler_round, parsed.
  destruct (json_loads fr) as [[m|]|]; cbn [fst snd]; [| |]; last first.
  { destruct l; simpl; rewrite Nat.add_0_r; auto. }
  { destruct (handler_finally_fixed l w) as (-> & -> & ->).
    destruct l; rewrite Nat.add_0_r; auto. }
  destruct l as [sid|].
  - pose proof (handle_message_counters sid m now w) as (Hb & Hs & _ & Hm).
    destruct (handle sid m now w) as [[e|] w1]; cbn [fst snd] in *.
    + destruct (handler_finally_fixed (Some sid) w1) as (-> & -> & ->).
      rewrite Nat.add_0_r. auto.
    + simpl. rewrite Hb. auto.
  - rewrite Nat.add_0_r.
    assert (forall c p w0, total_messages (bridge (send c p w0).2) = total_messages (bridge w0) /\
              total_bytes (bridge (send c p w0).2) = total_bytes (bridge w0) /\
              start_time (bridge (send c p w0).2) = start_time (bridge w0)) as Hsend
      by (intros c p w0; by rewrite (proj1 (send_bridge c p w0))).
    destruct (decide (msg_type m = Some "register")) as [Ht|Ht].
    + destruct (msg_site_id m) as [sid|]; last first.
      { cbn [fst snd handler_finally]. destruct (Hsend ws (PError "site_id required") w)
          as (-> & -> & ->). auto. }
      destruct (decide (sid = "")) as [->|Hne].
      { cbn [fst snd handler_finally]. rewrite decide_True by done.
        destruct (Hsend ws (PError "site_id required") w) as (-> & -> & ->). auto. }
      destruct (register_site_fixed ws sid (default "" (msg_name m)) now w) as (Hm & Hb & Hs).
      set (w1 := register_site ws sid (default "" (msg_name m)) now w) in *.
      destruct (Hsend ws (PRegistered sid) w1) as (Hm1 & Hb1 & Hs1).
      destruct (send ws (PRegistered sid) w1) as [[] w2]; cbn [fst snd] in *.
      * match goal with |- context [send ws ?p w2] =>
          destruct (Hsend ws p w2) as (Hm2 & Hb2 & Hs2);
          destruct (send ws p w2) as [[] w3] end; cbn [fst snd] in *.
        -- rewrite Hb2, Hb1, Hb, Hs2, Hs1, Hs, Hm2, Hm1, Hm. auto.
        -- destruct (handler_finally_fixed (Some sid) w3) as (-> & -> & ->).
           rewrite Hb2, Hb1, Hb, Hs2, Hs1, Hs, Hm2, Hm1, Hm. auto.
      * destruct (handler_finally_fixed (Some sid) w2) as (-> & -> & ->).
        rewrite Hb1, Hb, Hs1, Hs, Hm1, Hm. auto.
    + destruct (Hsend ws (PError "Must register first") w) as (Hm & Hb & Hs).
      destruct (send ws (PError "Must register first") w) as [[] w1];
        cbn [fst snd handler_finally] in *; rewrite Hb, Hs, Hm; auto.
Qed.

(** X6: [total_bytes] counts the length of exactly the frames that were
    parsed and handled without an exception on a registered connection.
    The frame that registers, frames before registration, invalid JSON,
    JSON that is not an object and a frame whose handling raised are not
    counted. *)
Theorem total_bytes_counts_handled_frames ws l fr now w :
  let r := handler_round json_dumps json_dumps_sorted sha256_hexdigest ws l fr now w in
  total_bytes (bridge r.2)
  = (total_bytes (bridge w)
     + match l, parsed fr, r.1 with
       | Some _, Some _, Continue _ => raw_len fr
       | _, _, _ => 0
       end)%nat.
Proof.
  cbv zeta. destruct (handler_round_counters ws l fr now w) as (H & _).
  destruct l; exact H.
Qed.
End CounterFacts.

(** ** Forwarding *)

Section ForwardingFacts.
Variable json_dumps : payload -> string.
Variable json_dumps_sorted : message -> string.
Variable sha256_hexdigest : string -> string.

Local Abbreviation relay := (relay_to_site json_dumps).
Local Abbreviation dedup := (deduplicate_message json_dumps_sorted sha256_hexdigest).
Local Abbreviation handle := (handle_message json_dumps json_dumps_sorted sha256_hexdigest).

Lemma unicast_target_dedup sid m now w :
  unicast_target sid m (set_total_messages S (dedup m now w).2) = unicast_target sid m w.
Proof.
  destruct (dedup_only_seen json_dumps_sorted sha256_hexdigest m now w) as (seen' & ->).
  reflexivity.
Qed.

(** A new [mesh_message], after the seen messages and the counter are
    updated, is relayed to its target or broadcast. *)
Lemma handle_new_mesh_message sid m now w :
  msg_type m = Some "mesh_message" ->
  (dedup m now w).1 = true ->
  handle sid m now w
  = (None,
     let w2 := set_total_messages S (dedup m now w).2 in
     match unicast_target sid m w with
     | Some target_site => (relay target_site (PMsg m) w2).2
     | None => broadcast (PMsg m) (Some sid) w2
     end).
Proof.
  intros Ht Hnew. rewrite handle_mesh_message by (by rewrite Ht).
  rewrite <- (unicast_target_dedup sid m now w).
  destruct (dedup m now w) as [[] w1]; [done | discriminate].
Qed.

(** X7: a new [mesh_message] without a destination that resolves to
    another site, the registered connections being open, is delivered
    once to every registered site but the sender, in the order of the
    registry, and counted once; the registry and the routing table stay
    as they are.  The sender need not be registered: a message of a site
    that is not in the registry is delivered to every registered site. *)
Theorem mesh_message_broadcast_reaches_all_others sid m now w :
  msg_type m = Some "mesh_message" ->
  (deduplicate_message json_dumps_sorted sha256_hexdigest m now w).1 = true ->
  unicast_target sid m w = None ->
  (forall k s, (k, s) ∈ sites (bridge w) -> websocket s ∉ closed w) ->
  let r := handle_message json_dumps json_dumps_sorted sha256_hexdigest sid m now w in
  r.1 = None /\
  wire r.2 = wire w ++ map (fun e => (websocket e.2, PMsg m))
                           (filter (fun e => e.1 <> sid) (sites (bridge w))) /\
  (dict_get sid (sites (bridge w)) = None ->
     wire r.2 = wire w ++ map (fun e => (websocket e.2, PMsg m)) (sites (bridge w))) /\
  sites (bridge r.2) = sites (bridge w) /\
  routing_table (bridge r.2) = routing_table (bridge w) /\
  total_messages (bridge r.2) = S (total_messages (bridge w)).
Proof.
  intros Ht Hnew Hu Hopen. cbv zeta. rewrite handle_new_mesh_message by done.
  rewrite Hu. cbv zeta. cbn [fst snd].
  destruct (dedup_only_seen json_dumps_sorted sha256_hexdigest m now w) as (seen' & ->).
  rewrite broadcast_reaches_every_open_site_aux by done. simpl.
  assert (filter (fun e : string * Site => Some e.1 <> Some sid) (sites (bridge w))
          = filter (fun e => e.1 <> sid) (sites (bridge w))) as ->.
  { apply list_filter_iff. intros e. split; [congruence|]. intros H1 H2. by simplify_eq. }
  split_and!; try done.
  intros Hnone. rewrite filter_keep_all; [done|].
  intros [k s] Hin. simpl. intros ->. apply dict_get_None in Hnone. apply Hnone.
  apply list_elem_of_fmap. by exists (sid, s).
Qed.

(** X8: a new [mesh_message] whose destination resolves to another site
    that is registered with an open connection is delivered to that site
    and to no other; the record of that site counts the frame, and the
    message is counted once. *)
Theorem mesh_message_unicast_reaches_target_only sid m now w t s :
  msg_type m = Some "mesh_message" ->
  (deduplicate_message json_dumps_sorted sha256_hexdigest m now w).1 = true ->
  unicast_target sid m w = Some t ->
  dict_get t (sites (bridge w)) = Some s ->
  websocket s ∉ closed w ->
  let r := handle_message json_dumps json_dumps_sorted sha256_hexdigest sid m now w in
  r.1 = None /\
  wire r.2 = wire w ++ [(websocket s, PMsg m)] /\
  sites (bridge r.2) = dict_set t (relayed json_dumps (PMsg m) s) (sites (bridge w)) /\
  routing_table (bridge r.2) = routing_table (bridge w) /\
  total_messages (bridge r.2) = S (total_messages (bridge w)).
Proof.
  intros Ht Hnew Hu Hs Hopen. cbv zeta. rewrite handle_new_mesh_message by done.
  rewrite Hu. cbv zeta. cbn [fst snd].
  destruct (dedup_only_seen json_dumps_sorted sha256_hexdigest m now w) as (seen' & ->).
  rewrite relay_to_site_eq. simpl. rewrite Hs. by rewrite decide_False.
Qed.

(** X9: a new [mesh_message] whose destination resolves to a site that is
    not in the registry is counted and delivered to nobody: there is no
    fall back to a broadcast, and nothing else changes. *)
Theorem mesh_message_for_unregistered_owner_is_lost sid m now w t :
  msg_type m = Some "mesh_message" ->
  (deduplicate_message json_dumps_sorted sha256_hexdigest m now w).1 = true ->
  unicast_target sid m w = Some t ->
  dict_get t (sites (bridge w)) = None ->
  let r := handle_message json_dumps json_dumps_sorted sha256_hexdigest sid m now w in
  r.1 = None /\
  wire r.2 = wire w /\
  sites (bridge r.2) = sites (bridge w) /\
  routing_table (bridge r.2) = routing_table (bridge w) /\
  total_messages (bridge r.2) = S (total_messages (bridge w)).
Proof.
  intros Ht Hnew Hu Hs. cbv zeta. rewrite handle_new_mesh_message by done.
  rewrite Hu. cbv zeta. cbn [fst snd].
  destruct (dedup_only_seen json_dumps_sorted sha256_hexdigest m now w) as (seen' & ->).
  rewrite relay_to_site_eq. simpl. by rewrite Hs.
Qed.

End ForwardingFacts.

Lemma mesh_message_broadcast_reaches_all_others_witness :
  (deduplicate_message sorted_ex sha256_ex (mesh_msg "0xCCC" "yo") 9 w_nodes).1 = true /\
  unicast_target "s1" (mesh_msg "0xCCC" "yo") w_nodes = None /\
  wire (handle_message_ex "s1" (mesh_msg "0xCCC" "yo") 9 w_nodes).2
  = wire w_nodes ++ [(2%nat, PMsg (mesh_msg "0xCCC" "yo"))].
Proof.
  assert ((deduplicate_message sorted_ex sha256_ex (mesh_msg "0xCCC" "yo") 9 w_nodes).1 = true)
    as Hnew by (vm_compute; reflexivity).
  assert (unicast_target "s1" (mesh_msg "0xCCC" "yo") w_nodes = None) as Hu
    by (vm_compute; reflexivity).
  assert (forall k s, (k, s) ∈ sites (bridge w_nodes) -> websocket s ∉ closed w_nodes) as Hopen
    by (intros k s _; vm_compute; apply not_elem_of_nil).
  destruct (mesh_message_broadcast_reaches_all_others dumps_ex sorted_ex sha256_ex
              "s1" (mesh_msg "0xCCC" "yo") 9 w_nodes eq_refl Hnew Hu Hopen) as (_ & Hw & _).
  split; [exact Hnew|]. split; [exact Hu|].
  unfold handle_message_ex. rewrite Hw. vm_compute. reflexivity.
Defined.

Lemma mesh_message_unicast_reaches_target_only_witness :
  unicast_target "s1" (mesh_msg "0xBBB" "hi") w_nodes = Some "s2" /\
  exists s, dict_get "s2" (sites (bridge w_nodes)) = Some s /\ websocket s = 2%nat /\
    wire (handle_message_ex "s1" (mesh_msg "0xBBB" "hi") 8 w_nodes).2
    = wire w_nodes ++ [(websocket s, PMsg (mesh_msg "0xBBB" "hi"))].
Proof.
  assert (unicast_target "s1" (mesh_msg "0xBBB" "hi") w_nodes = Some "s2") as Hu
    by (vm_compute; reflexivity).
  assert (exists s, dict_get "s2" (sites (bridge w_nodes)) = Some s /\ websocket s = 2%nat)
    as (s & Hs & Hws) by (eexists; split; [vm_compute; reflexivity | reflexivity]).
  assert (websocket s ∉ closed w_nodes) as Hopen by (vm_compute; apply not_elem_of_nil).
  destruct (mesh_message_unicast_reaches_target_only dumps_ex sorted_ex sha256_ex
              "s1" (mesh_msg "0xBBB" "hi") 8 w_nodes "s2" s eq_refl
              ltac:(vm_compute; reflexivity) Hu Hs Hopen) as (_ & Hw & _).
  split; [exact Hu|]. exists s. split; [exact Hs|]. split; [exact Hws | exact Hw].
Defined.

Lemma mesh_message_for_unregistered_owner_is_lost_witness :
  unicast_target "s2" (mesh_msg "0xAAA" "hi") w_stale_route = Some "s1" /\
  dict_get "s1" (sites (bridge w_stale_route)) = None /\
  wire (handle_message_ex "s2" (mesh_msg "0xAAA" "hi") 102 w_stale_route).2
  = wire w_stale_route /\
  total_messages (bridge (handle_message_ex "s2" (mesh_msg "0xAAA" "hi") 102 w_stale_route).2)
  = S (total_messages (bridge w_stale_route)).
Proof.
  assert (unicast_target "s2" (mesh_msg "0xAAA" "hi") w_stale_route = Some "s1") as Hu
    by (vm_compute; reflexivity).
  assert (dict_get "s1" (sites (bridge w_stale_route)) = None) as Hs
    by (vm_compute; reflexivity).
  destruct (mesh_message_for_unregistered_owner_is_lost dumps_ex sorted_ex sha256_ex
              "s2" (mesh_msg "0xAAA" "hi") 102 w_stale_route "s1" eq_refl
              ltac:(vm_compute; reflexivity) Hu Hs) as (_ & Hw & _ & _ & Hm).
  split; [exact Hu|]. split; [exact Hs|]. split; [exact Hw | exact Hm].
Defined.


(** ** Deduplication across sites *)

Section DedupFacts.
Variable json_dumps : payload -> string.
Variable json_dumps_sorted : message -> string.
Variable sha256_hexdigest : string -> string.

Local Abbreviation relay := (relay_to_site json_dumps).
Local Abbreviation dedup := (deduplicate_message json_dumps_sorted sha256_hexdigest).
Local Abbreviation handle := (handle_message json_dumps json_dumps_sorted sha256_hexdigest).
Local Abbreviation msg_hash := (fun m => prefix 16 (sha256_hexdigest (json_dumps_sorted m))).

(** X11: after a check at time [now] the cache holds no entry of age 60
    seconds or more: the entries it holds are those of the window. *)
Theorem seen_messages_hold_only_the_window m now w h t :
  seen_messages (bridge (deduplicate_message json_dumps_sorted sha256_hexdigest m now w).2) !! h
  = Some t ->
  now - t < 60.
Proof.
  unfold deduplicate_message. simpl.
  destruct (filter _ (seen_messages (bridge w)) !! _) eqn:Hh; simpl.
  - intros [_ Hlt]%map_lookup_filter_Some. exact Hlt.
  - destruct (decide (h = msg_hash m)) as [->|Hne].
    + rewrite lookup_insert_eq. intros [= <-]. lia.
    + rewrite lookup_insert_ne by done. intros [_ Hlt]%map_lookup_filter_Some. exact Hlt.
Qed.

Lemma dedup_new_stored m now w :
  (dedup m now w).1 = true ->
  seen_messages (bridge (dedup m now w).2) !! msg_hash m = Some now.
Proof.
  unfold deduplicate_message. simpl.
  destruct (filter _ (seen_messages (bridge w)) !! _); simpl; [discriminate|].
  intros _. apply lookup_insert_eq.
Qed.

(** A message that is relayed: its type is not one the bridge answers
    itself. *)
Lemma handle_relayed_seen sid m now w :
  default "" (msg_type m) <> "heartbeat" ->
  default "" (msg_type m) <> "nodes_update" ->
  default "" (msg_type m) <> "query_sites" ->
  seen_messages (bridge (handle sid m now w).2) = seen_messages (bridge (dedup m now w).2).
Proof.
  intros H1 H2 H3.
  destruct (decide (default "" (msg_type m) = "mesh_message")) as [Ht|Hmm].
  - rewrite handle_mesh_message by done. cbn [snd].
    destruct (dedup m now w) as [[] w1]; cbn [snd]; [|done].
    cbv zeta. destruct (unicast_target sid m _).
    + by destruct (relay_to_site_fixed json_dumps s (PMsg m) (set_total_messages S w1))
        as (-> & _).
    + by destruct (run_fixed _ _ _ (broadcast_run (PMsg m) (Some sid) (set_total_messages S w1)))
        as (-> & _).
  - rewrite handle_unknown by done. cbn [snd].
    destruct (dedup m now w) as [[] w1]; cbn [snd]; [|done].
    by destruct (run_fixed _ _ _ (broadcast_run (PMsg m) (Some sid) w1)) as (-> & _).
Qed.

Lemma handle_relayed_duplicate sid m now t w :
  default "" (msg_type m) <> "heartbeat" ->
  default "" (msg_type m) <> "nodes_update" ->
  default "" (msg_type m) <> "query_sites" ->
  seen_messages (bridge w) !! msg_hash m = Some t -> now - t < 60 ->
  handle sid m now w
  = (None, set_seen_messages (filter (fun e => now - e.2 < message_ttl)) w).
Proof.
  intros H1 H2 H3 Hseen Hlt.
  pose proof (dedup_duplicate json_dumps_sorted sha256_hexdigest m now t w Hseen Hlt) as Hd.
  destruct (decide (default "" (msg_type m) = "mesh_message")) as [Ht|Hmm].
  - rewrite handle_mesh_message by done. by rewrite Hd.
  - rewrite handle_unknown by done. by rewrite Hd.
Qed.

(** X12: a relayed message (a [mesh_message] or a message of unknown
    type) is forwarded once per window whoever sends the copies: when it
    was new at time [t0], the same message from any site less than 60
    seconds later is dropped without a frame, and the registry, the
    routing table and the message counter stay as they are. *)
Theorem copy_from_any_site_is_dropped sid1 sid2 m t0 t1 w :
  default "" (msg_type m) <> "heartbeat" ->
  default "" (msg_type m) <> "nodes_update" ->
  default "" (msg_type m) <> "query_sites" ->
  (deduplicate_message json_dumps_sorted sha256_hexdigest m t0 w).1 = true ->
  t1 - t0 < 60 ->
  let w1 := (handle_message json_dumps json_dumps_sorted sha256_hexdigest sid1 m t0 w).2 in
  let r := handle_message json_dumps json_dumps_sorted sha256_hexdigest sid2 m t1 w1 in
  r.1 = None /\
  wire r.2 = wire w1 /\
  sites (bridge r.2) = sites (bridge w1) /\
  routing_table (bridge r.2) = routing_table (bridge w1) /\
  total_messages (bridge r.2) = total_messages (bridge w1).
Proof.
  intros H1 H2 H3 Hnew Hlt. cbv zeta.
  rewrite (handle_relayed_duplicate sid2 m t1 t0); try done.
  rewrite handle_relayed_seen by done. by apply dedup_new_stored.
Qed.
End DedupFacts.

Lemma seen_messages_hold_only_the_window_witness :
  seen_messages (bridge (deduplicate_message sorted_ex sha256_ex (mesh_msg "0xBBB" "hi") 8
                           w_nodes).2) !! "mesh_message|0xB" = Some 8 /\ 8 - 8 < 60.
Proof.
  assert (seen_messages (bridge (deduplicate_message sorted_ex sha256_ex
                                   (mesh_msg "0xBBB" "hi") 8 w_nodes).2)
            !! "mesh_message|0xB" = Some 8) as H by (vm_compute; reflexivity).
  split; [exact H|].
  exact (seen_messages_hold_only_the_window sorted_ex sha256_ex _ _ _ _ _ H).
Defined.

Lemma copy_from_any_site_is_dropped_witness :
  (deduplicate_message sorted_ex sha256_ex (mesh_msg "0xCCC" "yo") 9 w_three).1 = true /\
  30 - 9 < 60 /\
  wire (handle_message_ex "s2" (mesh_msg "0xCCC" "yo") 30
          (handle_message_ex "s1" (mesh_msg "0xCCC" "yo") 9 w_three).2).2
  = wire (handle_message_ex "s1" (mesh_msg "0xCCC" "yo") 9 w_three).2.
Proof.
  assert ((deduplicate_message sorted_ex sha256_ex (mesh_msg "0xCCC" "yo") 9 w_three).1 = true)
    as Hnew by (vm_compute; reflexivity).
  destruct (copy_from_any_site_is_dropped dumps_ex sorted_ex sha256_ex
              "s1" "s2" (mesh_msg "0xCCC" "yo") 9 30 w_three
              ltac:(discriminate) ltac:(discriminate) ltac:(discriminate)
              Hnew ltac:(lia)) as (_ & Hw & _).
  split; [exact Hnew|]. split; [lia | exact Hw].
Defined.

(** ** The heartbeat monitor and the live sites *)

Lemma heartbeat_loop_nothing_stale now snapshot :
  forall w,
    (forall k s, (k, s) ∈ snapshot -> ~ now - last_heartbeat s > heartbeat_timeout) ->
    heartbeat_loop now snapshot w = w.
Proof.
  induction snapshot as [|[sid site] rest IH]; intros w Hfresh; simpl; [done|].
  rewrite decide_False by (apply (Hfresh sid); left).
  apply IH. intros k s Hin. apply (Hfresh k). by right.
Qed.

(** X13: a pass of the heartbeat monitor that finds no site more than 90
    seconds old changes nothing at all: no site is unregistered and no
    frame is sent.  A site exactly 90 seconds old is not stale. *)
Theorem heartbeat_pass_without_stale_site now w :
  (forall k s, (k, s) ∈ sites (bridge w) -> now - last_heartbeat s <= 90) ->
  heartbeat_pass now w = w.
Proof.
  intros Hfresh. apply heartbeat_loop_nothing_stale.
  intros k s Hin. unfold heartbeat_timeout. pose proof (Hfresh k s Hin). lia.
Qed.

Lemma heartbeat_pass_without_stale_site_witness :
  (forall k s, (k, s) ∈ sites (bridge w_nodes) -> 90 - last_heartbeat s <= 90) /\
  heartbeat_pass 90 w_nodes = w_nodes.
Proof.
  assert (forall k s, (k, s) ∈ sites (bridge w_nodes) -> 90 - last_heartbeat s <= 90) as H.
  { intros k s Hin. vm_compute in Hin.
    apply elem_of_cons in Hin as [Heq|Hin]; [by simplify_eq|].
    apply elem_of_cons in Hin as [Heq|Hin]; [by simplify_eq|].
    by apply elem_of_nil in Hin. }
  split; [exact H | exact (heartbeat_pass_without_stale_site 90 w_nodes H)].
Defined.

Lemma heartbeat_loop_keeps_live now k s snapshot :
  forall w,
    NoDup (sites (bridge w)).*1 ->
    (forall s', (k, s') ∈ snapshot -> ~ now - last_heartbeat s' > heartbeat_timeout) ->
    dict_get k (sites (bridge w)) = Some s -> websocket s ∉ closed w ->
    dict_get k (sites (bridge (heartbeat_loop now snapshot w))) = Some s.
Proof.
  induction snapshot as [|[sid site] rest IH]; intros w Hnd Hfresh Hget Hopen; simpl; [done|].
  assert (forall s', (k, s') ∈ rest -> ~ now - last_heartbeat s' > heartbeat_timeout) as Hrest
    by (intros s' Hin; apply Hfresh; by right).
  destruct (decide (now - last_heartbeat site > heartbeat_timeout)) as [Hstale|]; [|by apply IH].
  destruct (unregister_site_run sid w) as (ks & new & _ & B & C & _).
  apply IH; [| done | | by rewrite C].
  - rewrite B. by apply filter_keys_NoDup.
  - apply unregister_site_n_keeps_open; try done.
    intros ->. by apply (Hfresh site); [left|].
Qed.

(** X14: the heartbeat monitor does not evict a live site: a site that is
    at most 90 seconds old and whose connection is open is still
    registered after the pass, with the record it had, whatever happens
    to the other sites. *)
Theorem heartbeat_pass_spares_live_sites now w k s :
  NoDup (sites (bridge w)).*1 ->
  dict_get k (sites (bridge w)) = Some s ->
  now - last_heartbeat s <= 90 ->
  websocket s ∉ closed w ->
  dict_get k (sites (bridge (heartbeat_pass now w))) = Some s.
Proof.
  intros Hnd Hget Hfresh Hopen. apply heartbeat_loop_keeps_live; try done.
  intros s' Hin. apply (dict_get_elem_NoDup _ _ _ Hnd) in Hin.
  unfold heartbeat_timeout. assert (s' = s) as -> by congruence. lia.
Qed.

Lemma heartbeat_pass_spares_live_sites_witness :
  NoDup (sites (bridge w_three)).*1 /\
  exists s, dict_get "s2" (sites (bridge w_three)) = Some s /\
    100 - last_heartbeat s <= 90 /\
    dict_get "s1" (sites (bridge (heartbeat_pass 100 w_three))) = None /\
    dict_get "s2" (sites (bridge (heartbeat_pass 100 w_three))) = Some s.
Proof.
  assert (NoDup (sites (bridge w_three)).*1) as Hnd
    by (apply (bool_decide_unpack _); vm_compute; exact I).
  assert (exists s, dict_get "s2" (sites (bridge w_three)) = Some s /\
                    last_heartbeat s = 80 /\ websocket s = 2%nat) as (s & Hs & Hhb & Hws)
    by (eexists; split; [vm_compute; reflexivity | split; reflexivity]).
  assert (100 - last_heartbeat s <= 90) as Hfresh by (rewrite Hhb; lia).
  assert (websocket s ∉ closed w_three) as Hopen by (vm_compute; apply not_elem_of_nil).
  split; [exact Hnd|]. exists s. split; [exact Hs|]. split; [exact Hfresh|].
  split; [vm_compute; reflexivity|].
  exact (heartbeat_pass_spares_live_sites 100 w_three "s2" s Hnd Hs Hfresh Hopen).
Defined.

(** ** The monitor over several passes *)

Lemma heartbeat_checker_gone nows :
  forall w k,
    dict_get k (sites (bridge w)) = None ->
    dict_get k (sites (bridge (heartbeat_checker nows w).2)) = None.
Proof.
  induction nows as [|now rest IH]; intros w k Hnone; simpl; [done|].
  apply IH. eapply run_sites_none; [apply heartbeat_loop_run | done].
Qed.

Lemma heartbeat_checker_evicts nows :
  forall w k s,
    dict_get k (sites (bridge w)) = Some s ->
    Exists (fun now => now - last_heartbeat s > 90) nows ->
    dict_get k (sites (bridge (heartbeat_checker nows w).2)) = None.
Proof.
  induction nows as [|now rest IH]; intros w k s Hget Hlate; [by apply Exists_nil in Hlate|].
  cbn [heartbeat_checker snd].
  destruct (dict_get k (sites (bridge (heartbeat_pass now w)))) as [s'|] eqn:Hk;
    [|by apply heartbeat_checker_gone].
  pose proof (run_sites_get _ _ _ _ _ (heartbeat_loop_run _ _ w) Hk) as Hk0.
  assert (s' = s) as -> by congruence.
  apply Exists_cons in Hlate as [Hnow|Hrest]; [|by apply (IH _ k s)].
  unfold heartbeat_pass in Hk.
  rewrite (heartbeat_loop_evicts now (sites (bridge w)) k s w) in Hk; [done | |].
  - by apply dict_get_Some_elem.
  - exact Hnow.
Qed.

Lemma heartbeat_checker_spares nows :
  forall w k s,
    NoDup (sites (bridge w)).*1 ->
    dict_get k (sites (bridge w)) = Some s ->
    Forall (fun now => now - last_heartbeat s <= 90) nows ->
    websocket s ∉ closed w ->
    dict_get k (sites (bridge (heartbeat_checker nows w).2)) = Some s.
Proof.
  induction nows as [|now rest IH]; intros w k s Hnd Hget Hfresh Hopen; [done|].
  cbn [heartbeat_checker snd]. apply Forall_cons in Hfresh as [Hnow Hrest].
  destruct (heartbeat_loop_run now (sites (bridge w)) w) as (ks & new & _ & B & C & _).
  apply IH; [| | done |].
  - unfold heartbeat_pass. rewrite B. by apply filter_keys_NoDup.
  - apply heartbeat_loop_keeps_live; try done.
    intros s' Hin. apply (dict_get_elem_NoDup _ _ _ Hnd) in Hin.
    assert (s' = s) as -> by congruence.
    unfold heartbeat_timeout. lia.
  - unfold heartbeat_pass. by rewrite C.
Qed.

Lemma heartbeat_checker_sleeps nows :
  forall w, (heartbeat_checker nows w).1 = replicate (length nows) 30.
Proof.
  induction nows as [|now rest IH]; intros w; [done|].
  cbn [heartbeat_checker fst length replicate]. by rewrite IH.
Qed.



(** ** A session of [handler] *)

Section SessionFacts.
Variable json_dumps : payload -> string.
Variable json_dumps_sorted : message -> string.
Variable sha256_hexdigest : string -> string.

Local Abbreviation round_of := (handler_round json_dumps json_dumps_sorted sha256_hexdigest).
Local Abbreviation loop := (handler_loop json_dumps json_dumps_sorted sha256_hexdigest).

Lemma handler_loop_owned ws frames :
  forall st w hs,
    owned (sites (bridge w)) hs -> hs !! ws = Some st -> st <> Ended ->
    (loop ws (local_site_id st) frames w).1 <> Continue None /\
    (forall l, (loop ws (local_site_id st) frames w).1 <> Continue l) /\
    owned (sites (bridge (loop ws (local_site_id st) frames w).2)) (<[ws := Ended]> hs).
Proof.
  induction frames as [|[fr now] rest IH]; intros st w hs Ho Hc Hst.
  - simpl. split_and!; [done | done | by apply owned_finally].
  - cbn [handler_loop].
    pose proof (owned_round json_dumps json_dumps_sorted sha256_hexdigest ws st fr now w hs
                  Ho Hc Hst) as Hr.
    destruct (round_of ws (local_site_id st) fr now w) as [[l| |e] w1];
      cbn [fst snd after_round] in Hr.
    + assert (exists st1, st1 <> Ended /\ local_site_id st1 = l /\
                          after_round (Continue l) = st1) as (st1 & Hst1 & Hl & Har).
      { destruct l as [sid|]; [exists (Identified sid) | exists Waiting]; done. }
      cbn [after_round] in Hr. rewrite <- Hl.
      assert (owned (sites (bridge w1)) (<[ws := st1]> hs)) as Hr1.
      { destruct l; simpl in Har; by subst st1. }
      destruct (IH st1 w1 (<[ws := st1]> hs) Hr1 (lookup_insert_eq _ _ _) Hst1)
        as (H1 & H2 & H3).
      rewrite insert_insert_eq in H3. done.
    + done.
    + done.
Qed.

End SessionFacts.


(** ** The statistics in the reachable states *)

Section StatsFacts.
Variable json_dumps : payload -> string.
Variable json_dumps_sorted : message -> string.
Variable sha256_hexdigest : string -> string.
Variable timedelta_str : Z -> string.

Local Abbreviation step_of := (step json_dumps json_dumps_sorted sha256_hexdigest).

Lemma step_counters sys sys' :
  step_of sys sys' ->
  (total_messages (bridge (sys_world sys)) <= total_messages (bridge (sys_world sys')))%nat /\
  (total_bytes (bridge (sys_world sys)) <= total_bytes (bridge (sys_world sys')))%nat /\
  start_time (bridge (sys_world sys')) = start_time (bridge (sys_world sys)).
Proof.
  intros Hstep. destruct Hstep; cbn [sys_world].
  - done.
  - destruct (handler_round_counters json_dumps json_dumps_sorted sha256_hexdigest
                c (local_site_id st) fr now w) as (Hb & Hs & Hm).
    split_and!; [destruct Hm as [->| ->]; lia | rewrite Hb; lia | done].
  - destruct (handler_finally_fixed (local_site_id st) (close_conn c w)) as (-> & -> & ->).
    done.
  - done.
  - destruct (run_fixed _ _ _ (heartbeat_loop_run now (sites (bridge w)) w))
      as (_ & Hm & Hb & Hs & _).
    unfold heartbeat_pass. rewrite Hm, Hb, Hs. done.
Qed.

(** X17: the counters of [get_stats] never go back and the bridge is never
    restarted: whatever the handlers, the network and the monitor do
    between two readings, [total_messages] and [total_bytes] of the later
    one are at least those of the earlier one, and two readings taken of
    the two states at the same clock show the same uptime. *)
Theorem statistics_never_go_back sys sys' now :
  rtc (step json_dumps json_dumps_sorted sha256_hexdigest) sys sys' ->
  let s := get_stats timedelta_str now (sys_world sys) in
  let s' := get_stats timedelta_str now (sys_world sys') in
  (st_total_messages s <= st_total_messages s')%nat /\
  (st_total_bytes s <= st_total_bytes s')%nat /\
  st_uptime_seconds s' = st_uptime_seconds s /\
  st_uptime_str s' = st_uptime_str s.
Proof.
  intros Hr. cbv zeta. unfold get_stats. cbn [st_total_messages st_total_bytes
    st_uptime_seconds st_uptime_str].
  induction Hr as [sys|sys sys1 sys' Hstep Hr IH]; [done|].
  destruct (step_counters _ _ Hstep) as (Hm & Hb & Hs).
  destruct IH as (IHm & IHb & IHu & IHstr).
  rewrite Hs in IHu, IHstr. split_and!; [lia | lia | done | done].
Qed.

End StatsFacts.

Lemma statistics_never_go_back_witness :
  rtc (step dumps_ex sorted_ex sha256_ex)
      (mkSystem (mkWorld (WANBridge_init 0) [] []) ∅)
      (mkSystem w_s1_evicted {[1%nat := Identified "s1"]}) /\
  st_uptime_seconds (get_stats (fun _ => "") 200 w_s1_evicted) = 200.
Proof.
  pose proof eviction_is_reachable as Hr. unfold reachable in Hr.
  destruct (statistics_never_go_back dumps_ex sorted_ex sha256_ex (fun _ => "") _ _ 200 Hr)
    as (_ & _ & Hu & _).
  split; [exact Hr|]. cbn [sys_world] in Hu. rewrite Hu. vm_compute. reflexivity.
Defined.

